(** * tempo.py: vowel tempo statistics for three language variants

    A shallow embedding of [tempo.py] and of the part of pandas / numpy it
    relies on, followed by the properties of the pipeline.

    Conventions of the embedding.
    - A cell of a table is a dynamically typed Python value: text, an
      integer or a binary64 float ([PrimFloat]); a missing value is the
      float [nan], as pandas stores it.
    - Text is a UTF-8 byte string.  UTF-8 is self-synchronising, so the
      byte-wise substring test and the byte-wise order agree with Python's
      code point versions on well-formed text.
    - A row is a finite map from column names to cells; a column a row
      has no entry for reads as missing.  A table is its list of column
      names and its list of rows, in order.
    - Python exceptions are values of [exn]; a computation that may raise
      returns a [result].
    - The three grouping columns ([variant], [emotion], [file_name]) are
      text columns: a cell without text in them is read as a missing
      value.  pandas would group and sort by a number; the properties about
      a whole table therefore assume key columns of labels ([labelled]),
      and the properties about one group name its text key.
    - The [.str] accessor of a series raises [AttributeError] when the
      series has elements and none of them is text.
    - Unicode case folding, white space stripping and the printing of
      floats are taken from the Python runtime through the class [PyStr]. *)

From Stdlib Require Import ZArith Ascii String DecimalString Uint63.
From Stdlib Require Import Floats.PrimFloat Floats.SpecFloat Floats.FloatOps.
From stdpp Require Import gmap strings list fin_maps sorting.

Set Warnings "-inexact-float".
Open Scope string_scope.
Open Scope list_scope.

(** ** Python values and exceptions *)

Inductive cell : Type :=
  | Str (s : string)
  | Int (z : Z)
  | Flt (x : float).

Inductive exn : Type :=
  | ValueError (msg : string)
  | KeyError (key : string)
  | TypeError
  | AttributeError.

Inductive result (A : Type) : Type :=
  | Ok (a : A)
  | Raise (e : exn).
Arguments Ok {A} a.
Arguments Raise {A} e.

#[export] Instance result_ret : MRet result := fun A a => Ok a.
#[export] Instance result_bind : MBind result := fun A B f m =>
  match m with
  | Ok a => f a
  | Raise e => Raise e
  end.

(** [mapR f l] runs [f] over [l] from left to right and stops at the first
    exception. *)
Fixpoint mapR {A B : Type} (f : A -> result B) (l : list A) : result (list B) :=
  match l with
  | [] => Ok []
  | a :: l' => b ← f a; bs ← mapR f l'; Ok (b :: bs)
  end.

(** The string operations of the Python runtime that the program calls and
    that depend on the Unicode tables or on float printing. *)
Class PyStr : Type := {
  lower : string -> string;          (* str.lower *)
  strip : string -> string;          (* str.strip *)
  str_float : float -> string        (* str(x) for a float that is not nan *)
}.

Module py.

(** [str(x)] *)
Definition str `{PyStr} (c : cell) : string :=
  match c with
  | Str s => s
  | Int z => NilZero.string_of_int (Z.to_int z)
  | Flt x => if is_nan x then "nan" else str_float x
  end.

(** [sub in s] *)
Fixpoint contains (sub s : string) : bool :=
  String.prefix sub s ||
  match s with
  | EmptyString => false
  | String _ s' => contains sub s'
  end.

(** [s.replace(" ", "_")] *)
Fixpoint replace_space (s : string) : string :=
  match s with
  | EmptyString => EmptyString
  | String a s' =>
      String (if Ascii.eqb a " "%char then "_"%char else a) (replace_space s')
  end.

(** Conversion of an int64 to a float, as numpy does it in mixed
    arithmetic. *)
Definition float_of_Z (z : Z) : float :=
  if (z <? 0)%Z then PrimFloat.opp (of_uint63 (Uint63.of_Z (- z)))
  else of_uint63 (Uint63.of_Z z).

(** The float a numeric cell stands for; text raises [TypeError] in
    arithmetic. *)
Definition to_float (c : cell) : result float :=
  match c with
  | Str _ => Raise TypeError
  | Int z => Ok (float_of_Z z)
  | Flt x => Ok x
  end.

End py.

Module np.

Definition nan : cell := Flt PrimFloat.nan.

Definition isnan (c : cell) : bool :=
  match c with
  | Flt x => is_nan x
  | _ => false
  end.

(** [np.vectorize(f)(a, b)]: the function applied position by position;
    numpy refuses inputs of size 0 when no output type is given. *)
Definition vectorize (f : cell -> cell -> cell) (a b : list cell)
    : result (list cell) :=
  match a with
  | [] => Raise (ValueError "cannot call `vectorize` on size 0 inputs unless `otypes` is set")
  | _ => Ok (zip_with f a b)
  end.

End np.

(** ** The pandas operations the program uses *)

Abbreviation Row := (gmap string cell).

Module pd.

Record DataFrame : Type := {
  columns : list string;
  rows : list Row
}.

(** The cell of row [r] in column [c]; absent reads as missing. *)
Definition get (r : Row) (c : string) : cell := default np.nan (r !! c).

(** [df[c]] as a series *)
Definition col (df : DataFrame) (c : string) : list cell :=
  (fun r => get r c) <$> rows df.

(** [c in df.columns] *)
Definition has (df : DataFrame) (c : string) : bool :=
  bool_decide (c ∈ columns df).

(** [df.rename(columns=f)] *)
Definition rename (f : string -> string) (df : DataFrame) : DataFrame :=
  {| columns := f <$> columns df;
     rows := (fun r => list_to_map ((fun c => (f c, get r c)) <$> columns df))
               <$> rows df |}.

(** [df.rename(columns={old: new})] *)
Definition rename1 (old new : string) : DataFrame -> DataFrame :=
  rename (fun c => if bool_decide (c = old) then new else c).

(** [df[c] = series]: overwrites the column in place when it exists and
    appends it otherwise. *)
Definition setitem (c : string) (vals : list cell) (df : DataFrame) : DataFrame :=
  {| columns := if has df c then columns df else columns df ++ [c];
     rows := zip_with (fun r v => <[c := v]> r) (rows df) vals |}.

(** A scalar broadcast to the length of the frame. *)
Definition broadcast (df : DataFrame) (v : cell) : list cell :=
  replicate (length (rows df)) v.

(** The distinct elements of a list, in order of first appearance. *)
Definition unique {A : Type} `{EqDecision A} (l : list A) : list A :=
  foldl (fun acc a => if bool_decide (a ∈ acc) then acc else acc ++ [a]) [] l.

(** [pd.concat(dfs, ignore_index=True)] *)
Definition concat (dfs : list DataFrame) : DataFrame :=
  {| columns := unique (mjoin (columns <$> dfs));
     rows := mjoin (rows <$> dfs) |}.

Definition is_text (c : cell) : bool :=
  match c with
  | Str _ => true
  | _ => false
  end.

(** The series holds some text. *)
Definition has_text (s : list cell) : bool := existsb is_text s.

(** [series.str]: pandas gives the accessor for a series with text values
    and for a series without elements; for a series of numbers and missing
    values only it raises [AttributeError]. *)
Definition str_accessible (s : list cell) : bool :=
  match s with
  | [] => true
  | _ => has_text s
  end.

(** The cells of a series lower-cased; cells without text become
    missing. *)
Definition lowered `{PyStr} (s : list cell) : list cell :=
  (fun c => match c with Str t => Str (lower t) | _ => np.nan end) <$> s.

(** [series.str.lower()] *)
Definition str_lower `{PyStr} (s : list cell) : result (list cell) :=
  if str_accessible s then Ok (lowered s) else Raise AttributeError.

(** [series != text] *)
Definition ne_str (s : list cell) (t : string) : list bool :=
  (fun c => match c with Str u => negb (String.eqb u t) | _ => true end) <$> s.

(** The elements of [l] at the positions where the mask holds. *)
Fixpoint select {A : Type} (mask : list bool) (l : list A) : list A :=
  match mask, l with
  | b :: mask', a :: l' => if b then a :: select mask' l' else select mask' l'
  | _, _ => []
  end.

(** [df[mask]] *)
Definition loc (df : DataFrame) (mask : list bool) : DataFrame :=
  {| columns := columns df; rows := select mask (rows df) |}.

(** [series / d] for a float [d] *)
Definition truediv (s : list cell) (d : float) : result (list cell) :=
  mapR (fun c => x ← py.to_float c; Ok (Flt (x / d))) s.

(** [a * b] for a float series [a] *)
Definition mul (a b : list cell) : result (list cell) :=
  mapR (fun ab => x ← py.to_float ab.1; y ← py.to_float ab.2; Ok (Flt (x * y)))
       (zip a b).

(** The first of the [names] that is not a column of [df]. *)
Definition missing_column (df : DataFrame) (names : list string) : option string :=
  List.find (fun c => negb (has df c)) names.

(** *** Ordering *)

Definition text_of (c : cell) : option string :=
  match c with
  | Str s => Some s
  | _ => None
  end.

(** Missing values sort last. *)
Definition text_leb (a b : option string) : bool :=
  match a, b with
  | _, None => true
  | None, Some _ => false
  | Some x, Some y => String.leb x y
  end.

(** Lexicographic order on tuples of keys. *)
Fixpoint key_leb (k1 k2 : list (option string)) : bool :=
  match k1, k2 with
  | [], _ => true
  | _ :: _, [] => false
  | a :: k1', b :: k2' =>
      if bool_decide (a = b) then key_leb k1' k2' else text_leb a b
  end.

(** A stable sort: an element is put before the first element that is
    not smaller, hence before every element of equal key that was behind
    it. *)
Section Sort.
Context {A : Type} (key : A -> list (option string)).

Fixpoint insert_sorted (x : A) (l : list A) : list A :=
  match l with
  | [] => [x]
  | y :: l' =>
      if key_leb (key x) (key y) then x :: l else y :: insert_sorted x l'
  end.

Definition stable_sort (l : list A) : list A := foldr insert_sorted [] l.
End Sort.

Definition sort_key (by_ : list string) (r : Row) : list (option string) :=
  (fun c => text_of (get r c)) <$> by_.

(** [df.sort_values(by=by_)] for several columns *)
Definition sort_values (by_ : list string) (df : DataFrame) : result DataFrame :=
  match missing_column df by_ with
  | Some c => Raise (KeyError c)
  | None => Ok {| columns := columns df;
                  rows := stable_sort (sort_key by_) (rows df) |}
  end.

(** *** Grouping *)

(** The group of a row; rows with a missing key belong to no group
    ([dropna=True]). *)
Definition group_key (by_ : list string) (r : Row) : option (list string) :=
  mapM (fun c => text_of (get r c)) by_.

(** [df.groupby(by_).cumcount()]: the number of earlier rows of the same
    group, counted with one counter per group. *)
Fixpoint cumcount_go (by_ : list string) (seen : gmap (list string) nat)
    (l : list Row) : list (option Z) :=
  match l with
  | [] => []
  | r :: l' =>
      match group_key by_ r with
      | None => None :: cumcount_go by_ seen l'
      | Some k =>
          let n := default 0%nat (seen !! k) in
          Some (Z.of_nat n) :: cumcount_go by_ (<[k := S n]> seen) l'
      end
  end.

Definition cumcount (by_ : list string) (df : DataFrame) : list (option Z) :=
  cumcount_go by_ ∅ (rows df).

(** [series + k] on a nullable integer series *)
Definition add_scalar (s : list (option Z)) (k : Z) : list cell :=
  (fun o => match o with Some z => Int (z + k) | None => np.nan end) <$> s.

Definition int_of (c : cell) : option Z :=
  match c with
  | Int z => Some z
  | _ => None
  end.

(** The largest integer of column [c] in each group. *)
Definition maxima_step (by_ : list string) (c : string)
    (m : gmap (list string) Z) (r : Row) : gmap (list string) Z :=
  match group_key by_ r, int_of (get r c) with
  | Some k, Some z =>
      <[k := match m !! k with Some z' => Z.max z' z | None => z end]> m
  | _, _ => m
  end.

Definition group_maxima (by_ : list string) (c : string) (l : list Row)
    : gmap (list string) Z :=
  foldl (maxima_step by_ c) ∅ l.

(** [df.groupby(by_)[c].transform("max")] on an integer column *)
Definition transform_max (by_ : list string) (c : string) (df : DataFrame)
    : list cell :=
  let m := group_maxima by_ c (rows df) in
  (fun r => match group_key by_ r ≫= (fun k => m !! k) with
            | Some z => Int z
            | None => np.nan
            end) <$> rows df.

(** *** Aggregation *)

Inductive aggfn : Type := Mean | Std.

Definition float_of_nat (n : nat) : float :=
  of_uint63 (Uint63.of_Z (Z.of_nat n)).

Definition fsum (xs : list float) : float := foldl PrimFloat.add 0%float xs.

(** The arithmetic mean; the mean of nothing is missing. *)
Definition mean (xs : list float) : float :=
  match xs with
  | [] => PrimFloat.nan
  | _ => (fsum xs / float_of_nat (length xs))%float
  end.

(** The sample standard deviation (denominator [n - 1]); missing for
    fewer than two values. *)
Definition std (xs : list float) : float :=
  if (length xs <? 2)%nat then PrimFloat.nan
  else
    let m := mean xs in
    PrimFloat.sqrt
      (fsum ((fun x => (x - m) * (x - m))%float <$> xs)
       / float_of_nat (length xs - 1))%float.

(** The values of a numeric series that are not missing ([skipna]). *)
Definition observed (s : list cell) : result (list float) :=
  xs ← mapR py.to_float s;
  Ok (filter (fun x => is_nan x = false) xs).

Definition aggregate (f : aggfn) (s : list cell) : result cell :=
  xs ← observed s;
  Ok (Flt match f with Mean => mean xs | Std => std xs end).

(** The rows of group [k], in frame order. *)
Definition group_rows (by_ : list string) (k : list string) (l : list Row)
    : list Row :=
  filter (fun r => group_key by_ r = Some k) l.

(** The groups of a frame, sorted by key. *)
Definition group_keys (by_ : list string) (l : list Row) : list (list string) :=
  stable_sort (fmap Some) (unique (omap (group_key by_) l)).

(** A table whose cells are addressed by position. *)
Record Table : Type := {
  width : nat;
  body : list (list cell)
}.

(** The (column, function) pairs of an aggregation dictionary, in
    insertion order. *)
Definition agg_columns (spec : list (string * list aggfn))
    : list (string * aggfn) :=
  spec ≫= (fun cf => (fun f => (cf.1, f)) <$> cf.2).

(** [df.groupby(by_).agg(spec).reset_index()]: one row per group, the
    key cells followed by the statistics. *)
Definition groupby_agg (by_ : list string) (spec : list (string * list aggfn))
    (df : DataFrame) : result Table :=
  match missing_column df (by_ ++ spec.*1) with
  | Some c => Raise (KeyError c)
  | None =>
      b ← mapR (fun k =>
                  stats ← mapR (fun cf =>
                                  aggregate cf.2
                                    ((fun r => get r cf.1)
                                       <$> group_rows by_ k (rows df)))
                               (agg_columns spec);
                  Ok ((Str <$> k) ++ stats))
               (group_keys by_ (rows df));
      Ok {| width := length by_ + length (agg_columns spec); body := b |}
  end.

(** [table.columns = names] *)
Definition set_columns (names : list string) (t : Table) : result DataFrame :=
  if (width t =? length names)%nat
  then Ok {| columns := names;
             rows := (fun cs => list_to_map (zip names cs)) <$> body t |}
  else Raise (ValueError "Length mismatch").

(** [df.pivot_table(index=index, columns=c, values=v).reset_index()]
    with the default aggregation (the mean) and [dropna=True]: the mean
    of every (index, column) group is taken, groups whose mean is missing
    are dropped, and the column level is unstacked; a combination that
    does not occur reads as missing. *)
Definition pivot_table (index : list string) (c v : string) (df : DataFrame)
    : result DataFrame :=
  match missing_column df (index ++ [c; v]) with
  | Some c' => Raise (KeyError c')
  | None =>
      groups ← mapR (fun k =>
                       xs ← observed ((fun r => get r v)
                                        <$> group_rows (index ++ [c]) k (rows df));
                       Ok (k, mean xs))
                    (group_keys (index ++ [c]) (rows df));
      let kept := filter (fun g => is_nan g.2 = false) groups in
      let n := length index in
      let idx := stable_sort (fmap Some) (unique ((fun g => take n g.1) <$> kept)) in
      let cs := stable_sort (fun x => [Some x])
                  (unique ((fun g => default "" (last g.1)) <$> kept)) in
      Ok {| columns := index ++ cs;
            rows := (fun i =>
                       list_to_map
                         (zip index (Str <$> i) ++
                          ((fun c' =>
                              (c',
                               match List.find (fun g => bool_decide (g.1 = i ++ [c']))
                                       kept with
                               | Some g => Flt g.2
                               | None => np.nan
                               end)) <$> cs))) <$> idx |}
  end.

End pd.

(** ** Standard output *)

Inductive output : Type :=
  | PrintStr (s : string)
  | PrintFrame (df : pd.DataFrame).

(** A run of the script: what has been printed so far, and a value or the
    exception that ended the run. *)
Definition IO (A : Type) : Type := list output -> list output * result A.

#[export] Instance IO_ret : MRet IO := fun A a out => (out, Ok a).
#[export] Instance IO_bind : MBind IO := fun A B f m out =>
  match m out with
  | (out', Ok a) => f a out'
  | (out', Raise e) => (out', Raise e)
  end.

Definition print (x : output) : IO unit := fun out => (out ++ [x], Ok tt).
Definition lift {A : Type} (r : result A) : IO A := fun out => (out, r).
Definition run {A : Type} (m : IO A) : list output * result A := m [].

(** ** The program *)

Definition RUS_FILE : string := "rus.xlsx".
Definition BIL_FILE : string := "biling.xlsx".
Definition KAB_FILE : string := "kab.xlsx".

Definition nl : string := String (ascii_of_nat 10) EmptyString.

Section Program.
Context `{PyStr}.
(** The spreadsheets on disk, as [pd.read_excel] returns them. *)
Variable read_excel : string -> pd.DataFrame.

Definition load_variant (path variant_label : string) : pd.DataFrame :=
  let df := read_excel path in
  let df := pd.rename (fun c => py.replace_space (lower (strip c))) df in
  let df :=
    if pd.has df "persent_duration" && negb (pd.has df "percent_duration")
    then pd.rename1 "persent_duration" "percent_duration" df else df in
  let df :=
    if negb (pd.has df "total_duration") && pd.has df "totaldur"
    then pd.rename1 "totaldur" "total_duration" df else df in
  let df :=
    if negb (pd.has df "transcription_phonemes") && pd.has df "transcription"
    then pd.rename1 "transcription" "transcription_phonemes" df else df in
  let df :=
    if negb (pd.has df "file_name") && pd.has df "filename"
    then pd.rename1 "filename" "file_name" df else df in
  pd.setitem "variant" (pd.broadcast df (Str variant_label)) df.

Definition detect_emotion (name : cell) : string :=
  let s := lower (py.str name) in
  if py.contains "гнев" s then "гнев"
  else if py.contains "радост" s then "радость"
  else if py.contains "нейтр" s || py.contains "neutr" s then "нейтральная"
  else "другое".

Definition prepare_full_dataframe : result pd.DataFrame :=
  let rus := load_variant RUS_FILE "русский вариант" in
  let bil := load_variant BIL_FILE "русская речь билингва" in
  let kab := load_variant KAB_FILE "кабардинский язык" in
  let df := pd.concat [rus; bil; kab] in
  df ← (if pd.has df "transcription_phonemes"
        then
          low ← pd.str_lower (pd.col df "transcription_phonemes");
          Ok (pd.loc df (pd.ne_str low "consonant"))
        else Raise (ValueError "Не найден столбец transcription_phonemes"));
  df ← (if negb (pd.has df "emotion")
        then
          if negb (pd.has df "file_name")
          then Raise (ValueError
                        "Для определения эмоции нужен столбец emotion или file_name")
          else Ok (pd.setitem "emotion"
                     ((fun c => Str (detect_emotion c)) <$> pd.col df "file_name")
                     df)
        else Ok df);
  if negb (pd.has df "percent_duration")
  then Raise (ValueError "Не найден столбец percent_duration / persent_duration")
  else if pd.has df "total_duration"
  then
    q ← pd.truediv (pd.col df "percent_duration") 100;
    d ← pd.mul q (pd.col df "total_duration");
    Ok (pd.setitem "dur_s" d df)
  else if pd.has df "duration"
  then Ok (pd.setitem "dur_s" (pd.col df "duration") df)
  else Ok (pd.setitem "dur_s" (pd.broadcast df np.nan) df).

Definition zone_for_row (row_count row_index : Z) : string :=
  if (row_index <=? 3)%Z then "начало"
  else if (row_index >? row_count - 3)%Z then "конец"
  else "середина".

(** [zone_for_row] on the cells of the two series.  A missing operand
    makes both comparisons false. *)
Definition zone_for_cells (row_count row_index : cell) : cell :=
  match row_count, row_index with
  | Int n, Int i => Str (zone_for_row n i)
  | _, _ => Str "середина"
  end.

Definition utterance : list string := ["variant"; "emotion"; "file_name"].

Definition assign_zones (df : pd.DataFrame) : result pd.DataFrame :=
  if negb (pd.has df "file_name")
  then Raise (ValueError "Для позиционного анализа необходим столбец file_name")
  else
    df ← pd.sort_values utterance df;
    let df := pd.setitem "v_index" (pd.add_scalar (pd.cumcount utterance df) 1) df in
    let counts := pd.transform_max utterance "v_index" df in
    zone ← np.vectorize zone_for_cells counts (pd.col df "v_index");
    Ok (pd.setitem "zone" zone df).

Definition compute_overall_table (df : pd.DataFrame) : result pd.DataFrame :=
  let agg_dict := [("percent_duration", [pd.Mean; pd.Std])] in
  let agg_dict :=
    if pd.has df "dur_s" then agg_dict ++ [("dur_s", [pd.Mean; pd.Std])]
    else agg_dict in
  overall ← pd.groupby_agg ["emotion"; "variant"] agg_dict df;
  pd.set_columns
    (if pd.has df "dur_s"
     then ["Эмоция"; "Вариант"; "Средний_%_длительности"; "SD_%";
           "Средняя_длительность_с"; "SD_длительности_с"]
     else ["Эмоция"; "Вариант"; "Средний_%_длительности"; "SD_%"])
    overall.

Definition compute_zone_table (df : pd.DataFrame) : result pd.DataFrame :=
  df_z ← assign_zones df;
  let agg_dict := [("percent_duration", [pd.Mean; pd.Std])] in
  let agg_dict :=
    if pd.has df_z "dur_s" then agg_dict ++ [("dur_s", [pd.Mean; pd.Std])]
    else agg_dict in
  zones ← pd.groupby_agg ["emotion"; "variant"; "zone"] agg_dict df_z;
  if pd.has df_z "dur_s"
  then pd.set_columns
         ["Эмоция"; "Вариант"; "Зона"; "Средний_%_длительности"; "SD_%";
          "Средняя_длительность_с"; "SD_длительности_с"] zones
  else pd.set_columns
         ["Эмоция"; "Вариант"; "Зона"; "Средний_%_длительности"; "SD_%"] zones.

Definition main : IO unit :=
  df_all ← lift prepare_full_dataframe;
  overall_table ← lift (compute_overall_table df_all);
  _ ← print (PrintStr "Общая таблица по эмоциям и языкам:");
  _ ← print (PrintFrame overall_table);
  zone_table ← lift (compute_zone_table df_all);
  _ ← print (PrintStr (nl +:+ "Таблица по позиционным зонам:"));
  _ ← print (PrintFrame zone_table);
  pivot_summary ← lift (pd.pivot_table ["Эмоция"; "Зона"] "Вариант"
                          "Средний_%_длительности" zone_table);
  _ ← print (PrintStr (nl +:+
        "Сводная таблица средней процентной длительности (для вставки в статью):"));
  print (PrintFrame pivot_summary).

End Program.

(** ** A runtime for examples

    [lower] and [strip] below agree with Python on text made of ASCII and
    Cyrillic letters; [str_float] prints the exact decimal expansion, which
    is what Python prints for whole numbers below [10^16] and for fractions
    such as [0.5] or [2.25]. *)

Module Sample.

Definition byte (a : ascii) : N := N_of_ascii a.

Definition in_range (lo hi : N) (a : ascii) : bool :=
  (lo <=? byte a)%N && (byte a <=? hi)%N.

Definition shift (d : N) (a : ascii) : ascii := ascii_of_N (byte a + d).

(** ASCII capitals, and the two-byte UTF-8 forms of U+0400..U+042F. *)
Fixpoint lower (s : string) : string :=
  match s with
  | EmptyString => EmptyString
  | String a s' =>
      if in_range 65 90 a then String (shift 32 a) (lower s')
      else
        match s' with
        | String b s'' =>
            if (byte a =? 208)%N && in_range 144 159 b
            then String a (String (shift 32 b) (lower s''))
            else if (byte a =? 208)%N && in_range 160 175 b
            then String (shift 1 a) (String (ascii_of_N (byte b - 32)) (lower s''))
            else if (byte a =? 208)%N && in_range 128 143 b
            then String (shift 1 a) (String (shift 16 b) (lower s''))
            else String a (lower s')
        | EmptyString => String a EmptyString
        end
  end.

Definition is_space (a : ascii) : bool :=
  in_range 9 13 a || in_range 28 32 a.

Fixpoint lstrip (s : string) : string :=
  match s with
  | String a s' => if is_space a then lstrip s' else s
  | EmptyString => EmptyString
  end.

Definition strip (s : string) : string :=
  String.rev (lstrip (String.rev (lstrip s))).

Definition dec (z : Z) : string := NilZero.string_of_int (Z.to_int z).

Fixpoint zeros (n : nat) : string :=
  match n with
  | O => EmptyString
  | S n' => String "0" (zeros n')
  end.

Fixpoint drop_zeros (s : string) : string :=
  match s with
  | String "0" s' => drop_zeros s'
  | _ => s
  end.

Definition fraction (r : Z) (k : nat) : string :=
  let digits := dec (r * 5 ^ Z.of_nat k) in
  let padded := zeros (k - String.length digits) +:+ digits in
  let cut := String.rev (drop_zeros (String.rev padded)) in
  if String.eqb cut "" then "0" else cut.

Definition str_float (x : float) : string :=
  match FloatOps.Prim2SF x with
  | SpecFloat.S754_zero s => if s then "-0.0" else "0.0"
  | SpecFloat.S754_infinity s => if s then "-inf" else "inf"
  | SpecFloat.S754_nan => "nan"
  | SpecFloat.S754_finite s m e =>
      let sign := if s then "-" else "" in
      if (0 <=? e)%Z then sign +:+ dec (Z.pos m * 2 ^ e) +:+ ".0"
      else
        let k := (- e)%Z in
        sign +:+ dec (Z.pos m / 2 ^ k) +:+ "." +:+
        fraction (Z.pos m mod 2 ^ k) (Z.to_nat k)
  end.

#[export] Instance runtime : PyStr := Build_PyStr lower strip str_float.

(** Spreadsheets for the examples. *)

Definition sheet (names : list string) (cells : list (list cell)) : pd.DataFrame :=
  {| pd.columns := names;
     pd.rows := (fun cs => list_to_map (zip names cs)) <$> cells |}.

Definition no_sheet : pd.DataFrame := sheet [] [].

Definition disk (rus bil kab : pd.DataFrame) (path : string) : pd.DataFrame :=
  if String.eqb path RUS_FILE then rus
  else if String.eqb path BIL_FILE then bil
  else if String.eqb path KAB_FILE then kab
  else no_sheet.

(** One utterance of three vowels, without duration columns. *)
Definition u1 : pd.DataFrame :=
  sheet ["file_name"; "emotion"; "transcription_phonemes"; "percent_duration"]
    [ [Str "u1"; Str "нейтральная"; Str "a"; Flt 10];
      [Str "u1"; Str "нейтральная"; Str "o"; Flt 20];
      [Str "u1"; Str "нейтральная"; Str "i"; Flt 70] ].

End Sample.

(** * Vocabulary of the properties *)

Definition is_substring (sub s : string) : Prop :=
  exists pre post, s = pre +:+ sub +:+ post.

Definition key_le (k1 k2 : list (option string)) : Prop := pd.key_leb k1 k2 = true.

Definition max_step (o : option Z) (z : Z) : option Z :=
  Some match o with Some z' => Z.max z' z | None => z end.

Definition with_v_index (l : list Row) : list Row :=
  zip_with (fun r v => <["v_index" := v]> r) l
           (pd.add_scalar (pd.cumcount_go utterance ∅ l) 1).

Definition zone_of (m : gmap (list string) Z) (r : Row) : cell :=
  zone_for_cells
    match pd.group_key utterance r ≫= (fun k => m !! k) with
    | Some z => Int z
    | None => np.nan
    end
    (pd.get r "v_index").

Definition zoned_rows (l : list Row) : list Row :=
  let l1 := with_v_index (pd.stable_sort (pd.sort_key utterance) l) in
  (fun r => <["zone" := zone_of (pd.group_maxima utterance "v_index" l1) r]> r)
    <$> l1.

Definition zoned_columns (cs : list string) : list string :=
  let cs1 := if bool_decide ("v_index" ∈ cs) then cs else cs ++ ["v_index"] in
  if bool_decide ("zone" ∈ cs1) then cs1 else cs1 ++ ["zone"].

Definition MSG_TRANSCRIPTION : string := "Не найден столбец transcription_phonemes".
Definition MSG_EMOTION : string :=
  "Для определения эмоции нужен столбец emotion или file_name".
Definition MSG_PERCENT : string :=
  "Не найден столбец percent_duration / persent_duration".
Definition MSG_FILE_NAME : string :=
  "Для позиционного анализа необходим столбец file_name".

(** The errors the program raises itself for a missing column. *)
Definition schema_error (e : exn) : bool :=
  match e with
  | ValueError msg =>
      bool_decide (msg ∈ [MSG_TRANSCRIPTION; MSG_EMOTION; MSG_PERCENT; MSG_FILE_NAME])
  | _ => false
  end.

(** The steps of the dataset assembler. *)

Section Assembler.
Context `{PyStr}.
Variable read_excel : string -> pd.DataFrame.

(** The three sources, loaded and concatenated. *)
Definition concatenated : pd.DataFrame :=
  pd.concat [load_variant read_excel RUS_FILE "русский вариант";
             load_variant read_excel BIL_FILE "русская речь билингва";
             load_variant read_excel KAB_FILE "кабардинский язык"].

(** The text of the transcription cell, lower-cased, is "consonant". *)
Definition is_consonant (r : Row) : Prop :=
  lower <$> pd.text_of (pd.get r "transcription_phonemes") = Some "consonant".

#[global] Instance is_consonant_dec (r : Row) : Decision (is_consonant r).
Proof. unfold is_consonant. apply _. Defined.

Definition keep_vowels (df : pd.DataFrame) : pd.DataFrame :=
  pd.loc df (pd.ne_str (pd.lowered (pd.col df "transcription_phonemes"))
                       "consonant").

Definition with_emotion (df : pd.DataFrame) : pd.DataFrame :=
  if pd.has df "emotion" then df
  else pd.setitem "emotion"
         ((fun c => Str (detect_emotion c)) <$> pd.col df "file_name") df.

Definition enriched : pd.DataFrame := with_emotion (keep_vowels concatenated).

Definition with_dur_s (df : pd.DataFrame) : result pd.DataFrame :=
  if pd.has df "total_duration"
  then
    q ← pd.truediv (pd.col df "percent_duration") 100;
    d ← pd.mul q (pd.col df "total_duration");
    Ok (pd.setitem "dur_s" d df)
  else if pd.has df "duration"
  then Ok (pd.setitem "dur_s" (pd.col df "duration") df)
  else Ok (pd.setitem "dur_s" (pd.broadcast df np.nan) df).

End Assembler.

(** A computation whose exceptions all come from the libraries. *)
Definition library_only {A : Type} (m : result A) : Prop :=
  forall e, m = Raise e -> schema_error e = false.

(** What the assembler writes into [dur_s] of a row [r], giving [r']. *)
Definition dur_s_row (df : pd.DataFrame) (r r' : Row) : Prop :=
  r' = <["dur_s" := pd.get r' "dur_s"]> r /\
  if pd.has df "total_duration"
  then exists p t,
         py.to_float (pd.get r "percent_duration") = Ok p /\
         py.to_float (pd.get r "total_duration") = Ok t /\
         pd.get r' "dur_s" = Flt (p / 100 * t)
  else if pd.has df "duration"
  then pd.get r' "dur_s" = pd.get r "duration"
  else pd.get r' "dur_s" = np.nan.

(** What the assembler leaves in [dur_s] of a record of its result. *)
Definition dur_s_spec (df : pd.DataFrame) (r : Row) : Prop :=
  if pd.has df "total_duration"
  then exists p t,
         py.to_float (pd.get r "percent_duration") = Ok p /\
         py.to_float (pd.get r "total_duration") = Ok t /\
         pd.get r "dur_s" = Flt (p / 100 * t)
  else if pd.has df "duration"
  then pd.get r "dur_s" = pd.get r "duration"
  else pd.get r "dur_s" = np.nan.



(** Rows [r] and [r'] agree outside the two derived columns. *)
Definition same_measurement (r r' : Row) : Prop :=
  forall c, c <> "emotion" -> c <> "dur_s" -> r' !! c = r !! c.

Definition OVERALL_WITH_DURATION : list string :=
  ["Эмоция"; "Вариант"; "Средний_%_длительности"; "SD_%";
   "Средняя_длительность_с"; "SD_длительности_с"].




(** ** Example data *)

Module Demo.
Import Sample.

(** Two utterances whose rows are interleaved. *)
Definition KEY_A : list string := ["русский вариант"; "гнев"; "a"].

Definition vowel (file : string) (pct : float) : list cell :=
  [Str "русский вариант"; Str "гнев"; Str file; Flt pct].

Definition interleaved : pd.DataFrame :=
  sheet ["variant"; "emotion"; "file_name"; "percent_duration"]
    [ vowel "b" 50; vowel "a" 1; vowel "a" 2; vowel "b" 60; vowel "a" 3;
      vowel "a" 4; vowel "a" 5; vowel "a" 6; vowel "a" 7 ].

Definition zoned_vowel (file : string) (pct : float) (i : Z) (zone : string)
    : list cell :=
  vowel file pct ++ [Int i; Str zone].

Definition interleaved_zoned : pd.DataFrame :=
  sheet ["variant"; "emotion"; "file_name"; "percent_duration"; "v_index"; "zone"]
    [ zoned_vowel "a" 1 1 "начало"; zoned_vowel "a" 2 2 "начало";
      zoned_vowel "a" 3 3 "начало"; zoned_vowel "a" 4 4 "середина";
      zoned_vowel "a" 5 5 "конец"; zoned_vowel "a" 6 6 "конец";
      zoned_vowel "a" 7 7 "конец";
      zoned_vowel "b" 50 1 "начало"; zoned_vowel "b" 60 2 "начало" ].

(** The fourth vowel of utterance "a" after zone assignment. *)
Definition fourth : Row :=
  list_to_map (zip ["variant"; "emotion"; "file_name"; "percent_duration";
                    "v_index"; "zone"]
                   (zoned_vowel "a" 4 4 "середина")).

(** The dataset assembled from [u1] alone, its zones and its overall
    table. *)
Definition u1_disk : string -> pd.DataFrame := disk u1 no_sheet no_sheet.

Definition u1_assembled : pd.DataFrame :=
  sheet ["file_name"; "emotion"; "transcription_phonemes"; "percent_duration";
         "variant"; "dur_s"]
    [ [Str "u1"; Str "нейтральная"; Str "a"; Flt 10; Str "русский вариант"; np.nan];
      [Str "u1"; Str "нейтральная"; Str "o"; Flt 20; Str "русский вариант"; np.nan];
      [Str "u1"; Str "нейтральная"; Str "i"; Flt 70; Str "русский вариант"; np.nan] ].

Definition u1_overall : pd.DataFrame :=
  sheet OVERALL_WITH_DURATION
    [ [Str "нейтральная"; Str "русский вариант";
       Flt 33.333333333333336; Flt 32.145502536643185; np.nan; np.nan] ].

(** The spelling variants of the column names, a total duration, and a
    row without transcription. *)
Definition timed : pd.DataFrame :=
  sheet ["Filename"; " Transcription"; "Persent Duration"; "TotalDur"]
    [ [Str "Гнев_1"; Str "a"; Flt 25; Flt 2];
      [Str "Гнев_1"; np.nan; Flt 50; Flt 2];
      [Str "Гнев_1"; Str "Consonant"; Flt 25; Flt 2] ].

Definition timed_disk : string -> pd.DataFrame := disk no_sheet timed no_sheet.

Definition timed_assembled : pd.DataFrame :=
  sheet ["variant"; "file_name"; "transcription_phonemes"; "percent_duration";
         "total_duration"; "emotion"; "dur_s"]
    [ [Str "русская речь билингва"; Str "Гнев_1"; Str "a"; Flt 25; Flt 2;
       Str "гнев"; Flt 0.5];
      [Str "русская речь билингва"; Str "Гнев_1"; np.nan; Flt 50; Flt 2;
       Str "гнев"; Flt 1] ].

(** A source with an emotion column and no file name. *)
Definition anonymous : pd.DataFrame :=
  sheet ["emotion"; "transcription_phonemes"; "percent_duration"]
    [ [Str "радость"; Str "a"; Flt 40];
      [Str "радость"; Str "u"; Flt 60] ].

Definition anonymous_disk : string -> pd.DataFrame :=
  disk anonymous no_sheet no_sheet.

Definition anonymous_overall : pd.DataFrame :=
  sheet OVERALL_WITH_DURATION
    [ [Str "радость"; Str "русский вариант";
       Flt 50; Flt 14.142135623730951; np.nan; np.nan] ].

(** A source without any percent duration column. *)
Definition unmeasured : pd.DataFrame :=
  sheet ["file_name"; "transcription_phonemes"] [ [Str "u1"; Str "a"] ].

Definition unmeasured_disk : string -> pd.DataFrame :=
  disk unmeasured no_sheet no_sheet.

End Demo.

(** ** Vocabulary of the further properties *)

(** The normal form of a column name. *)
Definition normalise `{PyStr} (c : string) : string :=
  py.replace_space (lower (strip c)).

(** One alias rule of the loader: [old] is renamed to [new] when [old] is
    a column and [new] is not. *)
Definition alias_rule (old new : string) (df : pd.DataFrame) : pd.DataFrame :=
  if pd.has df old && negb (pd.has df new) then pd.rename1 old new df else df.

(** The alias and the canonical name of each of the four rules. *)
Definition ALIASES : list (string * string) :=
  [("persent_duration", "percent_duration");
   ("totaldur", "total_duration");
   ("transcription", "transcription_phonemes");
   ("filename", "file_name")].

(** Column [k'] of [df'] exists and holds, row by row, the cells of column
    [k] of [df]. *)
Definition carries (k k' : string) (df df' : pd.DataFrame) : Prop :=
  k' ∈ pd.columns df' /\
  Forall2 (fun r r' => pd.get r' k' = pd.get r k) (pd.rows df) (pd.rows df').

Definition RUS_LABEL : string := "русский вариант".
Definition BIL_LABEL : string := "русская речь билингва".
Definition KAB_LABEL : string := "кабардинский язык".

Definition FILES : list string := [RUS_FILE; BIL_FILE; KAB_FILE].

(** Some source has a column whose normal form is [c]. *)
Definition offered `{PyStr} (read_excel : string -> pd.DataFrame) (c : string) : Prop :=
  exists path, path ∈ FILES /\ c ∈ normalise <$> pd.columns (read_excel path).

Definition EMOTIONS : list string := ["гнев"; "радость"; "нейтральная"; "другое"].

Definition ZONES : list string := ["начало"; "середина"; "конец"].

(** The records of one source that the assembler keeps. *)
Definition kept_rows `{PyStr} (read_excel : string -> pd.DataFrame)
    (path label : string) : list Row :=
  filter (fun r => ~ is_consonant r) (pd.rows (load_variant read_excel path label)).

(** The message of [np.vectorize] for an input without elements. *)
Definition MSG_VECTORIZE : string :=
  "cannot call `vectorize` on size 0 inputs unless `otypes` is set".

(** A record without the two columns the zone assigner writes. *)
Definition measurements (r : Row) : Row := delete "v_index" (delete "zone" r).

Definition ZONE_WITH_DURATION : list string :=
  ["Эмоция"; "Вариант"; "Зона"; "Средний_%_длительности"; "SD_%";
   "Средняя_длительность_с"; "SD_длительности_с"].

Definition ZONE_PLAIN : list string :=
  ["Эмоция"; "Вариант"; "Зона"; "Средний_%_длительности"; "SD_%"].

(** The statistics of column [c] over the records of [df] with emotion,
    variant and zone [k]. *)
Definition zone_stat (f : pd.aggfn) (c : string) (df : pd.DataFrame)
    (k : list string) : result cell :=
  pd.aggregate f ((fun r => pd.get r c)
                    <$> pd.group_rows ["emotion"; "variant"; "zone"] k (pd.rows df)).

(** Row [r] of the zone table describes the group [k] of the zone-assigned
    frame [df]. *)
Definition zone_row (df : pd.DataFrame) (k : list string) (r : Row) : Prop :=
  [pd.get r "Эмоция"; pd.get r "Вариант"; pd.get r "Зона"] = Str <$> k /\
  zone_stat pd.Mean "percent_duration" df k = Ok (pd.get r "Средний_%_длительности") /\
  zone_stat pd.Std "percent_duration" df k = Ok (pd.get r "SD_%") /\
  (pd.has df "dur_s" = true ->
   zone_stat pd.Mean "dur_s" df k = Ok (pd.get r "Средняя_длительность_с") /\
   zone_stat pd.Std "dur_s" df k = Ok (pd.get r "SD_длительности_с")).

(** The three headings the script prints. *)
Definition HEAD_OVERALL : string := "Общая таблица по эмоциям и языкам:".
Definition HEAD_ZONES : string := nl +:+ "Таблица по позиционным зонам:".
Definition HEAD_PIVOT : string :=
  nl +:+ "Сводная таблица средней процентной длительности (для вставки в статью):".

(** The last step of the script: the pivot of the zone table. *)
Definition pivot_summary (zone_table : pd.DataFrame) : result pd.DataFrame :=
  pd.pivot_table ["Эмоция"; "Зона"] "Вариант" "Средний_%_длительности" zone_table.

(** ** Further example data *)

Module Tables.
Import Sample.

(** The zone table of the dataset assembled from [u1]. *)
Definition u1_zones : pd.DataFrame :=
  sheet ZONE_WITH_DURATION
    [ [Str "нейтральная"; Str "русский вариант"; Str "начало";
       Flt 33.333333333333336; Flt 32.145502536643185; np.nan; np.nan] ].

(** The normalised sheet of the bilingual source of [Demo.timed_disk]. *)
Definition timed_normal : pd.DataFrame :=
  pd.rename (normalise (H:=runtime)) (Demo.timed_disk BIL_FILE).

End Tables.

(** * Properties *)

(** ** The result monad *)

Lemma bind_Ok {A B : Type} (m : result A) (f : A -> result B) (b : B) :
  m ≫= f = Ok b -> exists a, m = Ok a /\ f a = Ok b.
Proof. destruct m as [a|e]; [eauto | discriminate]. Qed.

(** ** Text *)

Lemma prefix_app (sub s : string) :
  String.prefix sub s = true <-> exists post, s = sub +:+ post.
Proof.
  revert s. induction sub as [|a sub IH]; intros s.
  - split; [intros _; by exists s | by destruct s].
  - destruct s as [|b s]; simpl.
    + split; [done | intros [post Hp]; discriminate].
    + destruct (ascii_dec a b) as [->|Hne].
      * rewrite IH. split; intros [post Hp]; exists post.
        -- by rewrite Hp.
        -- by injection Hp.
      * split; [done | intros [post Hp]; injection Hp; congruence].
Qed.

Lemma contains_spec (sub s : string) :
  py.contains sub s = true <-> is_substring sub s.
Proof.
  induction s as [|a s IH]; cbn -[String.prefix].
  - rewrite orb_false_r, prefix_app. split.
    + intros [post Hp]. by exists "", post.
    + intros (pre & post & Hp). destruct pre; [by exists post | discriminate].
  - rewrite orb_true_iff, prefix_app, IH. split.
    + intros [[post Hp] | (pre & post & Hp)].
      * by exists "", post.
      * exists (String a pre), post. by rewrite Hp.
    + intros (pre & post & Hp). destruct pre as [|b pre].
      * left. by exists post.
      * right. exists pre, post. simpl in Hp. by injection Hp.
Qed.

Lemma not_contains (sub s : string) :
  py.contains sub s = false <-> ~ is_substring sub s.
Proof. rewrite <- contains_spec. by destruct (py.contains sub s). Qed.

(** ** The stable sort *)

Lemma text_leb_refl (a : option string) : pd.text_leb a a = true.
Proof.
  destruct a as [x|]; simpl; [|done].
  by destruct (String.leb_total x x).
Qed.

Lemma text_leb_total (a b : option string) :
  pd.text_leb a b = false -> pd.text_leb b a = true.
Proof.
  destruct a as [x|], b as [y|]; simpl; try done.
  intros Hxy. destruct (String.leb_total x y); congruence.
Qed.

Lemma key_leb_refl (k : list (option string)) : pd.key_leb k k = true.
Proof. induction k as [|a k IH]; simpl; [done|]. by rewrite bool_decide_true. Qed.

Lemma key_leb_total (k1 k2 : list (option string)) :
  pd.key_leb k1 k2 = false -> pd.key_leb k2 k1 = true.
Proof.
  revert k2. induction k1 as [|a k1 IH]; intros [|b k2]; simpl; try done.
  case_bool_decide as Hab.
  - subst b. rewrite bool_decide_true by done. apply IH.
  - rewrite bool_decide_false by congruence. apply text_leb_total.
Qed.

Section SortFacts.
Context {A : Type} (key : A -> list (option string)).

Lemma insert_sorted_filter (k : list (option string)) (x : A) (l : list A) :
  filter (fun y => key y = k) (pd.insert_sorted key x l) =
  filter (fun y => key y = k) (x :: l).
Proof.
  induction l as [|y l IH]; simpl; [done|].
  destruct (pd.key_leb (key x) (key y)) eqn:Hxy; [done|].
  rewrite filter_cons, IH, !filter_cons.
  destruct (decide (key y = k)) as [Hy|Hy], (decide (key x = k)) as [Hx|Hx];
    try done.
  rewrite Hx, Hy, key_leb_refl in Hxy. done.
Qed.

Lemma stable_sort_filter (k : list (option string)) (l : list A) :
  filter (fun y => key y = k) (pd.stable_sort key l) =
  filter (fun y => key y = k) l.
Proof.
  induction l as [|x l IH]; simpl; [done|].
  rewrite insert_sorted_filter, !filter_cons, IH. done.
Qed.

Lemma insert_sorted_perm (x : A) (l : list A) :
  pd.insert_sorted key x l ≡ₚ x :: l.
Proof.
  induction l as [|y l IH]; simpl; [done|].
  destruct (pd.key_leb (key x) (key y)); [done|].
  rewrite IH. apply Permutation_swap.
Qed.

Lemma stable_sort_perm (l : list A) : pd.stable_sort key l ≡ₚ l.
Proof.
  induction l as [|x l IH]; simpl; [done|].
  by rewrite insert_sorted_perm, IH.
Qed.

Lemma stable_sort_length (l : list A) :
  length (pd.stable_sort key l) = length l.
Proof. by rewrite stable_sort_perm. Qed.

Lemma insert_sorted_Sorted (x : A) (l : list A) :
  Sorted key_le (key <$> l) ->
  Sorted key_le (key <$> pd.insert_sorted key x l).
Proof.
  induction l as [|y l IH]; simpl; intros Hs.
  - by repeat constructor.
  - destruct (pd.key_leb (key x) (key y)) eqn:Hxy; simpl.
    + constructor; [done|]. by constructor.
    + apply Sorted_inv in Hs as [Hs Hhd]. constructor; [by apply IH|].
      destruct l as [|z l]; simpl.
      * constructor. by apply key_leb_total.
      * destruct (pd.key_leb (key x) (key z)); simpl; constructor.
        -- by apply key_leb_total.
        -- by apply HdRel_inv in Hhd.
Qed.

Lemma stable_sort_Sorted (l : list A) :
  Sorted key_le (key <$> pd.stable_sort key l).
Proof.
  induction l as [|x l IH]; simpl; [constructor|].
  by apply insert_sorted_Sorted.
Qed.

(** Sorting a sorted list changes nothing. *)
Lemma stable_sort_id (l : list A) :
  Sorted key_le (key <$> l) -> pd.stable_sort key l = l.
Proof.
  induction l as [|x l IH]; simpl; [done|]. intros Hs.
  apply Sorted_inv in Hs as [Hs Hhd]. rewrite IH by done.
  destruct l as [|y l]; simpl; [done|].
  apply HdRel_inv in Hhd. unfold key_le in Hhd. by rewrite Hhd.
Qed.
End SortFacts.

(** ** Groups *)

Lemma group_key_sort_key (by_ : list string) (r : Row) (k : list string) :
  pd.group_key by_ r = Some k <-> pd.sort_key by_ r = Some <$> k.
Proof.
  unfold pd.group_key, pd.sort_key.
  rewrite mapM_Some, list_eq_Forall2, Forall2_fmap.
  split; intros Hf; induction Hf; constructor; simpl in *; congruence.
Qed.

Lemma group_rows_sort_key (by_ : list string) (k : list string) (l : list Row) :
  pd.group_rows by_ k l = filter (fun r => pd.sort_key by_ r = Some <$> k) l.
Proof.
  unfold pd.group_rows. apply list_filter_iff. intros r. apply group_key_sort_key.
Qed.

(** The sort keeps every group in its original order. *)
Lemma group_rows_stable_sort (by_ : list string) (k : list string) (l : list Row) :
  pd.group_rows by_ k (pd.stable_sort (pd.sort_key by_) l) = pd.group_rows by_ k l.
Proof. rewrite !group_rows_sort_key. apply stable_sort_filter. Qed.

Lemma get_insert_ne (r : Row) (c c' : string) (v : cell) :
  c <> c' -> pd.get (<[c := v]> r) c' = pd.get r c'.
Proof. intros Hne. unfold pd.get. by rewrite lookup_insert_ne. Qed.

Lemma get_insert_eq (r : Row) (c : string) (v : cell) :
  pd.get (<[c := v]> r) c = v.
Proof. unfold pd.get. by rewrite lookup_insert_eq. Qed.

Lemma sort_key_insert (by_ : list string) (r : Row) (c : string) (v : cell) :
  c ∉ by_ -> pd.sort_key by_ (<[c := v]> r) = pd.sort_key by_ r.
Proof.
  intros Hc. unfold pd.sort_key. apply list_fmap_ext. intros i c' Hi.
  rewrite get_insert_ne; [done|]. intros ->. apply Hc.
  by apply list_elem_of_lookup_2 in Hi.
Qed.

Lemma group_key_insert (by_ : list string) (r : Row) (c : string) (v : cell) :
  c ∉ by_ -> pd.group_key by_ (<[c := v]> r) = pd.group_key by_ r.
Proof.
  intros Hc. apply option_eq. intros k.
  by rewrite !group_key_sort_key, sort_key_insert.
Qed.

(** ** Masks *)

Lemma select_fmap {A B : Type} (f : A -> B) (mask : list bool) (l : list A) :
  pd.select mask (f <$> l) = f <$> pd.select mask l.
Proof.
  revert l. induction mask as [|b mask IH]; intros [|a l]; simpl; try done.
  destruct b; simpl; by rewrite IH.
Qed.

Lemma select_filter {A : Type} (P : A -> Prop) `{!forall x, Decision (P x)}
    (l : list A) :
  pd.select ((fun x => bool_decide (P x)) <$> l) l = filter P l.
Proof.
  induction l as [|a l IH]; simpl; [done|].
  rewrite filter_cons. case_bool_decide; case_decide; try done.
  f_equal. apply IH.
Qed.

Lemma filter_zip_with {A B : Type} (P : A -> Prop) `{!forall x, Decision (P x)}
    (f : A -> B -> A) (l : list A) (vs : list B) :
  (forall x v, P (f x v) <-> P x) ->
  filter P (zip_with f l vs) =
  zip_with f (filter P l) (pd.select ((fun x => bool_decide (P x)) <$> l) vs).
Proof.
  intros Hf. revert vs. induction l as [|a l IH]; intros [|v vs]; simpl; try done.
  - by destruct (filter P (a :: l)).
  - rewrite !filter_cons. case_bool_decide as Ha.
    + rewrite decide_True by by apply Hf. rewrite decide_True by done.
      simpl. f_equal. apply IH.
    + rewrite decide_False by by rewrite Hf. rewrite decide_False by done.
      apply IH.
Qed.

Lemma filter_fmap_same {A : Type} (P : A -> Prop) `{!forall x, Decision (P x)}
    (f : A -> A) (l : list A) :
  (forall x, P (f x) <-> P x) -> filter P (f <$> l) = f <$> filter P l.
Proof.
  intros Hf. induction l as [|a l IH]; [done|].
  rewrite fmap_cons, !filter_cons. destruct (decide (P a)) as [Ha|Ha].
  - rewrite decide_True by by apply Hf. by rewrite fmap_cons, IH.
  - rewrite decide_False by by rewrite Hf. done.
Qed.

(** ** Counting within groups *)

Lemma cumcount_go_length (by_ : list string) (seen : gmap (list string) nat)
    (l : list Row) :
  length (pd.cumcount_go by_ seen l) = length l.
Proof.
  revert seen. induction l as [|r l IH]; intros seen; simpl; [done|].
  destruct (pd.group_key by_ r); simpl; by rewrite IH.
Qed.

(** The counts handed to the rows of one group are consecutive. *)
Lemma cumcount_go_group (by_ : list string) (k : list string)
    (seen : gmap (list string) nat) (l : list Row) :
  pd.select ((fun r => bool_decide (pd.group_key by_ r = Some k)) <$> l)
            (pd.cumcount_go by_ seen l) =
  (fun j => Some (Z.of_nat (default 0%nat (seen !! k) + j)))
    <$> seq 0 (length (pd.group_rows by_ k l)).
Proof.
  revert seen. induction l as [|r l IH]; intros seen; [done|].
  rewrite fmap_cons. unfold pd.group_rows. rewrite filter_cons.
  cbn [pd.cumcount_go pd.select].
  destruct (pd.group_key by_ r) as [k'|] eqn:Hk.
  - case_bool_decide as Hkk.
    + injection Hkk as ->. rewrite decide_True by done.
      cbn [length seq fmap list_fmap]. f_equal.
      { by rewrite Nat.add_0_r. }
      rewrite IH, lookup_insert_eq. cbn [default].
      rewrite <- fmap_S_seq, <- list_fmap_compose.
      apply list_fmap_ext. intros _ j _. simpl. do 2 f_equal. lia.
    + rewrite decide_False by done. rewrite IH.
      rewrite lookup_insert_ne by congruence. done.
  - rewrite bool_decide_false by done. rewrite decide_False by done. apply IH.
Qed.

Lemma maxima_lookup (by_ : list string) (c : string) (k : list string)
    (l : list Row) (m : gmap (list string) Z) :
  foldl (pd.maxima_step by_ c) m l !! k =
  foldl max_step (m !! k)
        (omap (fun r => pd.int_of (pd.get r c)) (pd.group_rows by_ k l)).
Proof.
  revert m. induction l as [|r l IH]; intros m; [done|].
  cbn [foldl]. rewrite IH. unfold pd.group_rows. rewrite filter_cons.
  unfold pd.maxima_step.
  destruct (pd.group_key by_ r) as [k'|] eqn:Hk.
  - destruct (decide (Some k' = Some k)) as [[= ->]|Hne].
    + cbn [omap list_omap]. destruct (pd.int_of (pd.get r c)) as [z|]; [|done].
      cbn [foldl]. by rewrite lookup_insert_eq.
    + destruct (pd.int_of (pd.get r c)) as [z|]; [|done].
      rewrite lookup_insert_ne by congruence. done.
  - rewrite decide_False by done. done.
Qed.

Lemma foldl_max_step_seq (n : nat) :
  foldl max_step None ((fun j => Z.of_nat j + 1)%Z <$> seq 0 (S n)) =
  Some (Z.of_nat (S n)).
Proof.
  induction n as [|n IH]; [done|].
  rewrite seq_S, fmap_app, foldl_app, IH. simpl. unfold max_step. f_equal. lia.
Qed.

(** ** The zone assigner, step by step *)

Lemma with_v_index_length (l : list Row) : length (with_v_index l) = length l.
Proof.
  unfold with_v_index, pd.add_scalar.
  rewrite length_zip_with_l_eq; [done|].
  by rewrite length_fmap, cumcount_go_length.
Qed.

Lemma zoned_rows_length (l : list Row) : length (zoned_rows l) = length l.
Proof.
  unfold zoned_rows. by rewrite length_fmap, with_v_index_length, stable_sort_length.
Qed.

(** When the zone assigner returns, and what it returns. *)
Lemma assign_zones_Ok (df df' : pd.DataFrame) :
  assign_zones df = Ok df' <->
  "file_name" ∈ pd.columns df /\ "variant" ∈ pd.columns df /\
  "emotion" ∈ pd.columns df /\ pd.rows df <> [] /\
  df' = {| pd.columns := zoned_columns (pd.columns df);
           pd.rows := zoned_rows (pd.rows df) |}.
Proof.
  unfold assign_zones, pd.sort_values, pd.missing_column, utterance, pd.has.
  cbn [List.find].
  destruct (decide ("file_name" ∈ pd.columns df)) as [Hf|Hf];
    [rewrite (bool_decide_true _ Hf) | rewrite (bool_decide_false _ Hf)];
    cbn [negb]; [|split; [done | tauto]].
  destruct (decide ("variant" ∈ pd.columns df)) as [Hv|Hv];
    [rewrite (bool_decide_true _ Hv) | rewrite (bool_decide_false _ Hv)];
    cbn [negb]; [|split; [done | tauto]].
  destruct (decide ("emotion" ∈ pd.columns df)) as [He|He];
    [rewrite (bool_decide_true _ He) | rewrite (bool_decide_false _ He)];
    cbn [negb]; [|split; [done | tauto]].
  cbn [mbind result_bind].
  unfold pd.transform_max, pd.col, pd.setitem, pd.cumcount, np.vectorize, pd.has.
  cbn [pd.rows pd.columns].
  fold utterance.
  change (zip_with _ (pd.stable_sort (pd.sort_key utterance) (pd.rows df)) _)
    with (with_v_index (pd.stable_sort (pd.sort_key utterance) (pd.rows df))).
  set (l1 := with_v_index _).
  assert (Hlen : length l1 = length (pd.rows df))
    by (unfold l1; by rewrite with_v_index_length, stable_sort_length).
  assert (Hz : zoned_rows (pd.rows df) =
               zip_with (fun r v => <["zone" := v]> r) l1
                 (zip_with zone_for_cells
                    ((fun r => match pd.group_key utterance r
                                     ≫= (fun k => pd.group_maxima utterance "v_index" l1 !! k)
                               with Some z => Int z | None => np.nan end) <$> l1)
                    ((fun r => pd.get r "v_index") <$> l1))).
  { unfold zoned_rows. fold l1.
    rewrite zip_with_fmap_l, zip_with_fmap_r, zip_with_diag.
    rewrite zip_with_fmap_r, zip_with_diag. done. }
  destruct l1 as [|r1 l1'] eqn:Hl1; cbn [fmap list_fmap].
  - split; [done|]. intros (_ & _ & _ & Hne & _).
    destruct (pd.rows df); [done | discriminate].
  - split.
    + intros [= <-]. repeat split; try done.
      * intros Hnil. rewrite Hnil in Hlen. discriminate.
      * f_equal. by rewrite Hz.
    + intros (_ & _ & _ & _ & ->). by rewrite Hz.
Qed.

Lemma zip_with_seq {A B : Type} (f : A -> B -> A) (h : nat -> B) (l : list A) :
  zip_with f l (h <$> seq 0 (length l)) = imap (fun j r => f r (h j)) l.
Proof.
  revert h. induction l as [|a l IH]; intros h; [done|].
  cbn [length seq fmap list_fmap zip_with]. rewrite imap_cons. f_equal.
  rewrite <- fmap_S_seq, <- list_fmap_compose. apply (IH (h ∘ S)).
Qed.

Lemma omap_imap_seq {A B C : Type} (h : B -> option C) (F : nat -> A -> B)
    (G : nat -> C) (l : list A) :
  (forall j r, h (F j r) = Some (G j)) ->
  omap h (imap F l) = G <$> seq 0 (length l).
Proof.
  revert F G. induction l as [|a l IH]; intros F G HF; [done|].
  rewrite imap_cons. cbn [omap list_omap length seq fmap list_fmap].
  rewrite HF. f_equal. rewrite <- fmap_S_seq, <- list_fmap_compose.
  apply (IH (F ∘ S) (G ∘ S)). intros j r. apply HF.
Qed.

Lemma v_index_not_key : "v_index" ∉ utterance.
Proof. by apply (bool_decide_unpack _). Qed.

Lemma zone_not_key : "zone" ∉ utterance.
Proof. by apply (bool_decide_unpack _). Qed.

(** The rows of one utterance after numbering: the rows of the group in
    their order, numbered from 1. *)
Lemma with_v_index_group (k : list string) (l : list Row) :
  pd.group_rows utterance k (with_v_index l) =
  imap (fun j r => <["v_index" := Int (Z.of_nat j + 1)]> r)
       (pd.group_rows utterance k l).
Proof.
  unfold with_v_index, pd.group_rows.
  rewrite filter_zip_with
    by (intros r v; by rewrite group_key_insert by apply v_index_not_key).
  unfold pd.add_scalar. rewrite select_fmap, cumcount_go_group.
  rewrite lookup_empty. cbn [default]. rewrite <- list_fmap_compose.
  fold (pd.group_rows utterance k l).
  rewrite (zip_with_seq (fun (r : Row) v => <["v_index" := v]> r)). done.
Qed.

Lemma group_rows_elem (k : list string) (l : list Row) (j : nat) (r : Row) :
  pd.group_rows utterance k l !! j = Some r -> pd.group_key utterance r = Some k.
Proof.
  intros Hj. apply list_elem_of_lookup_2 in Hj.
  unfold pd.group_rows in Hj. by apply list_elem_of_filter in Hj as [? _].
Qed.

(** The largest number handed out in a group is the size of the group. *)
Lemma group_maxima_with_v_index (k : list string) (l : list Row) :
  pd.group_rows utterance k l <> [] ->
  pd.group_maxima utterance "v_index" (with_v_index l) !! k =
  Some (Z.of_nat (length (pd.group_rows utterance k l))).
Proof.
  intros Hne. unfold pd.group_maxima.
  rewrite maxima_lookup, lookup_empty, with_v_index_group.
  rewrite (omap_imap_seq _ _ (fun j => Z.of_nat j + 1)%Z)
    by (intros j r; by rewrite get_insert_eq).
  destruct (pd.group_rows utterance k l) as [|r g]; [done|].
  apply foldl_max_step_seq.
Qed.

(** The rows of one utterance in the result of the zone assigner: the
    rows of the utterance in the order of the input, numbered from 1, each
    with the zone of its number. *)
Lemma zoned_rows_group (k : list string) (l : list Row) :
  pd.group_rows utterance k (zoned_rows l) =
  imap (fun j r =>
          <["zone" := Str (zone_for_row
                             (Z.of_nat (length (pd.group_rows utterance k l)))
                             (Z.of_nat j + 1))]>
            (<["v_index" := Int (Z.of_nat j + 1)]> r))
       (pd.group_rows utterance k l).
Proof.
  unfold zoned_rows.
  set (ls := pd.stable_sort (pd.sort_key utterance) l).
  assert (Hg : pd.group_rows utterance k ls = pd.group_rows utterance k l)
    by apply group_rows_stable_sort.
  unfold pd.group_rows at 1.
  rewrite filter_fmap_same
    by (intros r; by rewrite group_key_insert by apply zone_not_key).
  fold (pd.group_rows utterance k (with_v_index ls)).
  rewrite with_v_index_group, Hg, fmap_imap.
  apply imap_ext. intros j r Hj. cbn [compose]. f_equal.
  unfold zone_of.
  rewrite group_key_insert by apply v_index_not_key.
  rewrite (group_rows_elem _ _ _ _ Hj). cbn [mbind option_bind].
  rewrite group_maxima_with_v_index, Hg, get_insert_eq; [done|].
  rewrite Hg. intros Hnil. by rewrite Hnil in Hj.
Qed.

(** ** A second run of the zone assigner *)

Lemma fmap_zip_with_same {A B C : Type} (g : A -> C) (f : A -> B -> A)
    (l : list A) (vs : list B) :
  (forall r v, g (f r v) = g r) -> length vs = length l ->
  g <$> zip_with f l vs = g <$> l.
Proof.
  intros Hg. revert vs. induction l as [|a l IH]; intros [|v vs] Hlen;
    simpl in *; try done.
  rewrite Hg. f_equal. apply IH. lia.
Qed.

Lemma sort_key_with_v_index (l : list Row) :
  pd.sort_key utterance <$> with_v_index l = pd.sort_key utterance <$> l.
Proof.
  unfold with_v_index. apply fmap_zip_with_same.
  - intros r v. apply sort_key_insert, v_index_not_key.
  - unfold pd.add_scalar. by rewrite length_fmap, cumcount_go_length.
Qed.

Lemma sort_key_zoned_rows (l : list Row) :
  pd.sort_key utterance <$> zoned_rows l =
  pd.sort_key utterance <$> pd.stable_sort (pd.sort_key utterance) l.
Proof.
  unfold zoned_rows. rewrite <- list_fmap_compose.
  rewrite <- sort_key_with_v_index. apply list_fmap_ext.
  intros _ r _. cbn [compose]. apply sort_key_insert, zone_not_key.
Qed.

Lemma group_key_of_sort_key (by_ : list string) (r r' : Row) :
  pd.sort_key by_ r = pd.sort_key by_ r' -> pd.group_key by_ r = pd.group_key by_ r'.
Proof.
  intros Hk. apply option_eq. intros k. rewrite !group_key_sort_key. by rewrite Hk.
Qed.

(** The counters only look at the keys. *)
Lemma cumcount_go_ext (by_ : list string) (seen : gmap (list string) nat)
    (l l' : list Row) :
  pd.sort_key by_ <$> l = pd.sort_key by_ <$> l' ->
  pd.cumcount_go by_ seen l = pd.cumcount_go by_ seen l'.
Proof.
  revert seen l'. induction l as [|r l IH]; intros seen [|r' l'] Hk;
    simpl in *; try done.
  injection Hk as Hr Hl. rewrite <- (group_key_of_sort_key _ _ _ Hr).
  destruct (pd.group_key by_ r); f_equal; by apply IH.
Qed.

Lemma zip_with_absorb {A B : Type} (f : A -> B -> A) (g : A -> A)
    (l : list A) (vs : list B) :
  (forall r v, f (g (f r v)) v = g (f r v)) ->
  zip_with f (g <$> zip_with f l vs) vs = g <$> zip_with f l vs.
Proof.
  intros Hfg. revert vs. induction l as [|a l IH]; intros [|v vs]; simpl; try done.
  rewrite Hfg. f_equal. apply IH.
Qed.

Lemma maxima_fmap (by_ : list string) (c : string) (g : Row -> Row)
    (m : gmap (list string) Z) (l : list Row) :
  (forall r, pd.group_key by_ (g r) = pd.group_key by_ r) ->
  (forall r, pd.get (g r) c = pd.get r c) ->
  foldl (pd.maxima_step by_ c) m (g <$> l) = foldl (pd.maxima_step by_ c) m l.
Proof.
  intros Hk Hc. revert m. induction l as [|r l IH]; intros m; simpl; [done|].
  rewrite IH. f_equal. unfold pd.maxima_step. by rewrite Hk, Hc.
Qed.

Lemma zoned_columns_idem (cs : list string) :
  zoned_columns (zoned_columns cs) = zoned_columns cs.
Proof.
  unfold zoned_columns.
  repeat (case_bool_decide; try done); exfalso;
    repeat match goal with
           | H : context [_ ∈ _ ++ _] |- _ => rewrite elem_of_app in H
           | H : context [_ ∈ [_]] |- _ => rewrite list_elem_of_singleton in H
           end;
    intuition discriminate.
Qed.

Lemma zoned_rows_idem (l : list Row) : zoned_rows (zoned_rows l) = zoned_rows l.
Proof.
  set (ls := pd.stable_sort (pd.sort_key utterance) l).
  assert (Hs : pd.stable_sort (pd.sort_key utterance) (zoned_rows l) = zoned_rows l).
  { apply stable_sort_id. rewrite sort_key_zoned_rows. apply stable_sort_Sorted. }
  assert (Hv : with_v_index (zoned_rows l) = zoned_rows l).
  { unfold with_v_index at 1.
    rewrite (cumcount_go_ext _ _ _ ls) by apply sort_key_zoned_rows.
    unfold zoned_rows at 1 2. fold ls. unfold with_v_index.
    apply zip_with_absorb. intros r v.
    rewrite insert_insert_ne by done. by rewrite insert_insert_eq. }
  unfold zoned_rows at 1. rewrite Hs, Hv.
  unfold zoned_rows. fold ls. set (l1 := with_v_index ls).
  unfold pd.group_maxima.
  rewrite (maxima_fmap utterance "v_index"
             (fun r => <["zone" := zone_of (pd.group_maxima utterance "v_index" l1) r]> r)).
  - rewrite <- list_fmap_compose. apply list_fmap_ext. intros _ r _. cbn [compose].
    fold (pd.group_maxima utterance "v_index" l1).
    set (m := pd.group_maxima utterance "v_index" l1).
    rewrite insert_insert_eq. f_equal. unfold zone_of.
    rewrite group_key_insert by apply zone_not_key.
    by rewrite get_insert_ne.
  - intros r. apply group_key_insert, zone_not_key.
  - intros r. by apply get_insert_ne.
Qed.

(** ** Traversals that may raise *)

Lemma mapR_Ok {A B : Type} (f : A -> result B) (l : list A) (bs : list B) :
  mapR f l = Ok bs <-> Forall2 (fun a b => f a = Ok b) l bs.
Proof.
  revert bs. induction l as [|a l IH]; intros bs; simpl.
  - split; [intros [= <-]; constructor | intros Hf; by inversion Hf].
  - split.
    + intros Hm. apply bind_Ok in Hm as (b & Hb & Hm).
      apply bind_Ok in Hm as (bs' & Hbs & [= <-]).
      constructor; [done | by apply IH].
    + intros Hf. inversion Hf as [|? b ? bs' Hb Hbs]; subst.
      apply IH in Hbs. rewrite Hb. simpl. rewrite Hbs. done.
Qed.

Lemma mapR_Raise {A B : Type} (f : A -> result B) (l : list A) (e : exn) :
  mapR f l = Raise e -> exists a, a ∈ l /\ f a = Raise e.
Proof.
  induction l as [|a l IH]; simpl; [done|].
  destruct (f a) as [b|e'] eqn:Hfa; simpl.
  - destruct (mapR f l) as [bs|e'']; simpl; [done|].
    intros [= ->]. destruct IH as (a' & Ha' & Hf); [done|].
    exists a'. split; [by right | done].
  - intros [= ->]. exists a. split; [by left | done].
Qed.

Lemma mapR_total {A B : Type} (f : A -> result B) (l : list A) :
  (forall a, a ∈ l -> exists b, f a = Ok b) -> exists bs, mapR f l = Ok bs.
Proof.
  induction l as [|a l IH]; intros Hf; simpl; [by eexists|].
  destruct (Hf a) as [b Hb]; [by left|]. rewrite Hb.
  destruct IH as [bs Hbs]; [intros a' Ha'; apply Hf; by right|].
  rewrite Hbs. by eexists.
Qed.

(** ** The dataset assembler, step by step *)

Lemma zip_with_replicate_same {A B : Type} (f : A -> B -> A) (v : B) (l : list A) :
  zip_with f l (replicate (length l) v) = (fun r => f r v) <$> l.
Proof. induction l as [|a l IH]; simpl; [done|]. by rewrite IH. Qed.

Lemma zip_with_fmap_same {A B : Type} (f : A -> B -> A) (g : A -> B) (l : list A) :
  zip_with f l (g <$> l) = (fun r => f r (g r)) <$> l.
Proof. by rewrite zip_with_fmap_r, zip_with_diag. Qed.

Lemma setitem_columns (c : string) (vals : list cell) (df : pd.DataFrame) (c' : string) :
  c' ∈ pd.columns (pd.setitem c vals df) <-> c' = c \/ c' ∈ pd.columns df.
Proof.
  unfold pd.setitem, pd.has. cbn [pd.columns]. case_bool_decide as Hc.
  - split; [auto | intros [->|?]; done].
  - rewrite elem_of_app, list_elem_of_singleton. tauto.
Qed.

Lemma dur_s_from_total (l : list Row) (q d : list cell) :
  pd.truediv ((fun r => pd.get r "percent_duration") <$> l) 100 = Ok q ->
  pd.mul q ((fun r => pd.get r "total_duration") <$> l) = Ok d ->
  Forall2 (fun r r' =>
             r' = <["dur_s" := pd.get r' "dur_s"]> r /\
             exists p t,
               py.to_float (pd.get r "percent_duration") = Ok p /\
               py.to_float (pd.get r "total_duration") = Ok t /\
               pd.get r' "dur_s" = Flt (p / 100 * t))
          l (zip_with (fun r v => <["dur_s" := v]> r) l d).
Proof.
  unfold pd.truediv, pd.mul. revert q d.
  induction l as [|r l IH]; intros q d Hq Hd; [constructor|].
  cbn [fmap list_fmap mapR] in Hq.
  apply bind_Ok in Hq as (c & Hc & Hq). apply bind_Ok in Hc as (p & Hp & [= <-]).
  apply bind_Ok in Hq as (q' & Hq' & [= <-]).
  cbn [fmap list_fmap zip mapR zip_with] in Hd.
  apply bind_Ok in Hd as (c' & Hc' & Hd). cbn [fst snd py.to_float] in Hc'.
  cbn [mbind result_bind] in Hc'.
  apply bind_Ok in Hc' as (t & Ht & [= <-]).
  apply bind_Ok in Hd as (d' & Hd' & [= <-]).
  cbn [zip_with]. constructor; [|by apply (IH q')].
  rewrite get_insert_eq. split; [done|]. by exists p, t.
Qed.

Lemma with_dur_s_Ok (df df' : pd.DataFrame) :
  with_dur_s df = Ok df' ->
  (forall c, c ∈ pd.columns df' <-> c = "dur_s" \/ c ∈ pd.columns df) /\
  Forall2 (dur_s_row df) (pd.rows df) (pd.rows df').
Proof.
  unfold with_dur_s, dur_s_row.
  destruct (pd.has df "total_duration") eqn:Ht.
  - intros Hd. apply bind_Ok in Hd as (q & Hq & Hd).
    apply bind_Ok in Hd as (d & Hd & [= <-]).
    split; [intros c; apply setitem_columns|].
    by apply (dur_s_from_total _ q d).
  - destruct (pd.has df "duration") eqn:Hdu; intros [= <-];
      (split; [intros c; apply setitem_columns|]);
      unfold pd.setitem, pd.col, pd.broadcast; cbn [pd.rows].
    + rewrite zip_with_fmap_same. apply Forall2_fmap_r, Forall_Forall2_diag.
      apply Forall_forall. intros r _. cbn [compose]. by rewrite get_insert_eq.
    + rewrite zip_with_replicate_same. apply Forall2_fmap_r, Forall_Forall2_diag.
      apply Forall_forall. intros r _. cbn [compose]. by rewrite get_insert_eq.
Qed.

(** Without a [total_duration] column the last step of the assembler
    cannot raise. *)
Lemma with_dur_s_total (df : pd.DataFrame) :
  pd.has df "total_duration" = false -> exists df', with_dur_s df = Ok df'.
Proof.
  intros Ht. unfold with_dur_s. rewrite Ht.
  destruct (pd.has df "duration"); by eexists.
Qed.

(** ** Which step can raise which error *)

Lemma library_only_Ok {A : Type} (a : A) : library_only (Ok a).
Proof. intros e. discriminate. Qed.

Lemma library_only_bind {A B : Type} (m : result A) (f : A -> result B) :
  library_only m -> (forall a, library_only (f a)) -> library_only (m ≫= f).
Proof.
  intros Hm Hf e. destruct m as [a|e']; simpl.
  - apply Hf.
  - intros [= ->]. by apply Hm.
Qed.

Lemma library_only_mapR {A B : Type} (f : A -> result B) (l : list A) :
  (forall a, library_only (f a)) -> library_only (mapR f l).
Proof.
  intros Hf e He. apply mapR_Raise in He as (a & _ & Ha). by apply (Hf a).
Qed.

Lemma library_only_to_float (c : cell) : library_only (py.to_float c).
Proof. intros e. destruct c; simpl; [by intros [= <-] | done | done]. Qed.

Lemma library_only_observed (s : list cell) : library_only (pd.observed s).
Proof.
  apply library_only_bind.
  - apply library_only_mapR, library_only_to_float.
  - intros xs. apply library_only_Ok.
Qed.

Lemma library_only_aggregate (f : pd.aggfn) (s : list cell) :
  library_only (pd.aggregate f s).
Proof.
  apply library_only_bind; [apply library_only_observed|].
  intros xs. apply library_only_Ok.
Qed.

Lemma library_only_groupby_agg (by_ : list string)
    (spec : list (string * list pd.aggfn)) (df : pd.DataFrame) :
  library_only (pd.groupby_agg by_ spec df).
Proof.
  unfold pd.groupby_agg. destruct (pd.missing_column df _).
  - by intros e [= <-].
  - apply library_only_bind; [|intros b; apply library_only_Ok].
    apply library_only_mapR. intros k. apply library_only_bind.
    + apply library_only_mapR. intros cf. apply library_only_aggregate.
    + intros stats. apply library_only_Ok.
Qed.

Lemma library_only_set_columns (names : list string) (t : pd.Table) :
  library_only (pd.set_columns names t).
Proof.
  unfold pd.set_columns. destruct (_ =? _)%nat; [apply library_only_Ok|].
  by intros e [= <-].
Qed.

Lemma library_only_overall (df : pd.DataFrame) :
  library_only (compute_overall_table df).
Proof.
  apply library_only_bind; [apply library_only_groupby_agg|].
  intros t. apply library_only_set_columns.
Qed.

Lemma library_only_pivot_table (index : list string) (c v : string)
    (df : pd.DataFrame) :
  library_only (pd.pivot_table index c v df).
Proof.
  unfold pd.pivot_table. destruct (pd.missing_column df _).
  - by intros e [= <-].
  - apply library_only_bind; [|intros g; apply library_only_Ok].
    apply library_only_mapR. intros k.
    apply library_only_bind; [apply library_only_observed|].
    intros xs. apply library_only_Ok.
Qed.

(** The only error of its own that the zone assigner raises is the one
    for a missing [file_name]. *)
Lemma assign_zones_schema (df : pd.DataFrame) (e : exn) :
  assign_zones df = Raise e -> schema_error e = true ->
  ("file_name" ∉ pd.columns df) /\ e = ValueError MSG_FILE_NAME.
Proof.
  unfold assign_zones, pd.has. case_bool_decide as Hf; cbn [negb].
  - intros He Hs. exfalso. revert e He Hs.
    enough (library_only
              (df0 ← pd.sort_values utterance df;
               zone ← np.vectorize zone_for_cells
                        (pd.transform_max utterance "v_index"
                           (pd.setitem "v_index"
                              (pd.add_scalar (pd.cumcount utterance df0) 1) df0))
                        (pd.col
                           (pd.setitem "v_index"
                              (pd.add_scalar (pd.cumcount utterance df0) 1) df0)
                           "v_index");
               Ok (pd.setitem "zone" zone
                     (pd.setitem "v_index"
                        (pd.add_scalar (pd.cumcount utterance df0) 1) df0))))
      as Hl by (intros e He Hs; apply Hl in He; congruence).
    apply library_only_bind.
    + unfold pd.sort_values. destruct (pd.missing_column df utterance).
      * by intros e [= <-].
      * apply library_only_Ok.
    + intros df0. apply library_only_bind; [|intros z; apply library_only_Ok].
      unfold np.vectorize. destruct (pd.transform_max _ _ _).
      * by intros e [= <-].
      * apply library_only_Ok.
  - by intros [= <-] _.
Qed.

Lemma compute_zone_table_schema (df : pd.DataFrame) (e : exn) :
  compute_zone_table df = Raise e -> schema_error e = true ->
  assign_zones df = Raise e.
Proof.
  unfold compute_zone_table. destruct (assign_zones df) as [df_z|e'] eqn:Hz.
  - cbn [mbind result_bind]. intros He Hs. exfalso. revert e He Hs.
    enough (library_only
              (zones ← pd.groupby_agg ["emotion"; "variant"; "zone"]
                         (if pd.has df_z "dur_s"
                          then [("percent_duration", [pd.Mean; pd.Std])] ++
                               [("dur_s", [pd.Mean; pd.Std])]
                          else [("percent_duration", [pd.Mean; pd.Std])]) df_z;
               if pd.has df_z "dur_s"
               then pd.set_columns
                      ["Эмоция"; "Вариант"; "Зона"; "Средний_%_длительности"; "SD_%";
                       "Средняя_длительность_с"; "SD_длительности_с"] zones
               else pd.set_columns
                      ["Эмоция"; "Вариант"; "Зона"; "Средний_%_длительности"; "SD_%"]
                      zones))
      as Hl by (intros e He Hs; apply Hl in He; congruence).
    apply library_only_bind; [apply library_only_groupby_agg|].
    intros t. destruct (pd.has df_z "dur_s"); apply library_only_set_columns.
  - cbn [mbind result_bind]. by intros [= <-] _.
Qed.

(** ** Grouped statistics *)

Lemma unique_foldl {A : Type} `{EqDecision A} (l acc : list A) :
  NoDup acc ->
  NoDup (foldl (fun acc a => if bool_decide (a ∈ acc) then acc else acc ++ [a]) acc l)
  /\ forall x,
       x ∈ foldl (fun acc a => if bool_decide (a ∈ acc) then acc else acc ++ [a]) acc l
       <-> x ∈ acc \/ x ∈ l.
Proof.
  revert acc. induction l as [|a l IH]; intros acc Hnd; cbn [foldl].
  - split; [done|]. intros x. rewrite elem_of_nil. tauto.
  - case_bool_decide as Ha.
    + destruct (IH acc Hnd) as [Hn Hm]. split; [done|].
      intros x. rewrite Hm, elem_of_cons. split; [tauto|].
      intros [?|[->|?]]; auto.
    + destruct (IH (acc ++ [a])) as [Hn Hm].
      { apply NoDup_app. split_and!; [done| |apply NoDup_singleton].
        intros x Hx Hx'. apply list_elem_of_singleton in Hx' as ->. done. }
      split; [done|]. intros x.
      rewrite Hm, elem_of_app, list_elem_of_singleton, elem_of_cons. tauto.
Qed.


Lemma elem_of_unique {A : Type} `{EqDecision A} (l : list A) (x : A) :
  x ∈ pd.unique l <-> x ∈ l.
Proof.
  unfold pd.unique. destruct (unique_foldl l [] (NoDup_nil_2 (A:=A))) as [_ Hm].
  rewrite Hm, elem_of_nil. tauto.
Qed.


(** The groups of a frame are the keys of its rows. *)
Lemma elem_of_group_keys (by_ : list string) (l : list Row) (k : list string) :
  k ∈ pd.group_keys by_ l <-> exists r, r ∈ l /\ pd.group_key by_ r = Some k.
Proof.
  unfold pd.group_keys. rewrite stable_sort_perm, elem_of_unique, list_elem_of_omap.
  done.
Qed.

Lemma group_keys_length (by_ : list string) (l : list Row) (k : list string) :
  k ∈ pd.group_keys by_ l -> length k = length by_.
Proof.
  intros (r & _ & Hk)%elem_of_group_keys. by apply length_mapM in Hk.
Qed.

Lemma Forall2_with_elem {A B : Type} (P : A -> B -> Prop) (l : list A) (k : list B) :
  Forall2 P l k -> Forall2 (fun x y => x ∈ l /\ P x y) l k.
Proof.
  intros Hf. induction Hf as [|x y l k Hxy Hf IH]; constructor.
  - split; [by left | done].
  - eapply Forall2_impl; [apply IH|]. intros x' y' [Hx' HP].
    split; [by right | done].
Qed.



(** ** The overall table *)


(** ** The assembled dataset *)

Section AssemblerFacts.
Context `{PyStr}.
Variable read_excel : string -> pd.DataFrame.

Lemma prepare_full_dataframe_eq :
  prepare_full_dataframe read_excel =
  if negb (pd.has (concatenated read_excel) "transcription_phonemes")
  then Raise (ValueError MSG_TRANSCRIPTION)
  else if negb (pd.str_accessible (pd.col (concatenated read_excel)
                                          "transcription_phonemes"))
  then Raise AttributeError
  else if negb (pd.has (concatenated read_excel) "emotion")
          && negb (pd.has (concatenated read_excel) "file_name")
  then Raise (ValueError MSG_EMOTION)
  else if negb (pd.has (concatenated read_excel) "percent_duration")
  then Raise (ValueError MSG_PERCENT)
  else with_dur_s (enriched read_excel).
Proof.
  unfold prepare_full_dataframe, enriched, with_emotion, with_dur_s.
  fold (concatenated read_excel).
  set (cat := concatenated read_excel).
  assert (Hc : forall c, pd.has (keep_vowels cat) c = pd.has cat c) by reflexivity.
  destruct (pd.has cat "transcription_phonemes") eqn:Ht;
    cbn [negb mbind result_bind]; [|reflexivity].
  unfold pd.str_lower.
  destruct (pd.str_accessible (pd.col cat "transcription_phonemes"));
    cbn [negb mbind result_bind]; [|reflexivity].
  fold (keep_vowels cat). rewrite !Hc.
  destruct (pd.has cat "emotion") eqn:He; cbn [negb andb mbind result_bind].
  - rewrite Hc. reflexivity.
  - destruct (pd.has cat "file_name") eqn:Hf;
      cbn [negb mbind result_bind]; [|reflexivity].
    assert (Hp : pd.has (pd.setitem "emotion"
                    ((fun c => Str (detect_emotion c))
                       <$> pd.col (keep_vowels cat) "file_name")
                    (keep_vowels cat)) "percent_duration"
                 = pd.has cat "percent_duration").
    { unfold pd.has at 1, pd.setitem. cbn [pd.columns].
      rewrite Hc, He. unfold pd.has. apply bool_decide_ext.
      change (pd.columns (keep_vowels cat)) with (pd.columns cat).
      rewrite elem_of_app, list_elem_of_singleton. intuition discriminate. }
    rewrite Hp. reflexivity.
Qed.

Lemma keep_vowels_rows (df : pd.DataFrame) :
  pd.rows (keep_vowels df) = filter (fun r => ~ is_consonant r) (pd.rows df).
Proof.
  unfold keep_vowels, pd.loc, pd.ne_str, pd.lowered, pd.col. cbn [pd.rows].
  rewrite <- !list_fmap_compose, <- select_filter. f_equal.
  apply list_fmap_ext. intros _ r _. cbn [compose].
  destruct (decide (is_consonant r)) as [Hc|Hc].
  - rewrite bool_decide_false by tauto. unfold is_consonant in Hc.
    destruct (pd.get r "transcription_phonemes") as [s| |]; try discriminate.
    injection Hc as Hc. by rewrite Hc.
  - rewrite bool_decide_true by done. unfold is_consonant in Hc.
    destruct (pd.get r "transcription_phonemes") as [s| |]; try done.
    destruct (String.eqb_spec (lower s) "consonant") as [Heq|Hne]; [|done].
    exfalso. apply Hc. simpl. by rewrite Heq.
Qed.

Lemma with_emotion_columns (df : pd.DataFrame) (c : string) :
  c ∈ pd.columns (with_emotion df) <-> c = "emotion" \/ c ∈ pd.columns df.
Proof.
  unfold with_emotion. destruct (pd.has df "emotion") eqn:He.
  - apply bool_decide_eq_true in He. split; [auto | intros [->|?]; done].
  - apply setitem_columns.
Qed.

Lemma with_emotion_rows (df : pd.DataFrame) :
  Forall2 (fun r r' => forall c, c <> "emotion" -> r' !! c = r !! c)
          (pd.rows df) (pd.rows (with_emotion df)).
Proof.
  unfold with_emotion. destruct (pd.has df "emotion").
  - by apply Forall_Forall2_diag, Forall_forall.
  - unfold pd.setitem, pd.col. cbn [pd.rows].
    rewrite <- list_fmap_compose, zip_with_fmap_same.
    apply Forall2_fmap_r, Forall_Forall2_diag, Forall_forall.
    intros r _ c Hc. cbn [compose]. by rewrite lookup_insert_ne.
Qed.

Lemma has_enriched (c : string) :
  c <> "emotion" ->
  pd.has (enriched read_excel) c = pd.has (concatenated read_excel) c.
Proof.
  intros Hc. unfold pd.has. apply bool_decide_ext.
  unfold enriched. rewrite with_emotion_columns. intuition.
Qed.

(** When the assembler returns, and what it returns. *)
Lemma prepare_full_dataframe_Ok (df : pd.DataFrame) :
  prepare_full_dataframe read_excel = Ok df <->
  "transcription_phonemes" ∈ pd.columns (concatenated read_excel) /\
  pd.str_accessible (pd.col (concatenated read_excel) "transcription_phonemes") = true /\
  ("emotion" ∈ pd.columns (concatenated read_excel) \/
   "file_name" ∈ pd.columns (concatenated read_excel)) /\
  "percent_duration" ∈ pd.columns (concatenated read_excel) /\
  with_dur_s (enriched read_excel) = Ok df.
Proof.
  rewrite prepare_full_dataframe_eq. unfold pd.has.
  destruct (pd.str_accessible _);
    repeat case_bool_decide; cbn [negb andb]; intuition congruence.
Qed.

Lemma assembled_rows (df : pd.DataFrame) :
  prepare_full_dataframe read_excel = Ok df ->
  Forall2 same_measurement
          (filter (fun r => ~ is_consonant r) (pd.rows (concatenated read_excel)))
          (pd.rows df).
Proof.
  intros (_ & _ & _ & _ & Hd)%prepare_full_dataframe_Ok.
  apply with_dur_s_Ok in Hd as [_ Hd]. rewrite <- keep_vowels_rows.
  pose proof (with_emotion_rows (keep_vowels (concatenated read_excel))) as He.
  fold (enriched read_excel) in He.
  eapply Forall2_trans; [|apply He|apply Hd].
  intros r r1 r' Hr1 [Hr' _] c Hc1 Hc2.
  rewrite Hr', lookup_insert_ne by done. by apply Hr1.
Qed.

End AssemblerFacts.

(** ** The duration column of the assembled dataset *)

Lemma assembled_dur_s `{PyStr} (read_excel : string -> pd.DataFrame)
    (df : pd.DataFrame) :
  prepare_full_dataframe read_excel = Ok df ->
  "dur_s" ∈ pd.columns df /\ Forall (dur_s_spec df) (pd.rows df).
Proof.
  intros (_ & _ & _ & _ & Hd)%prepare_full_dataframe_Ok.
  apply with_dur_s_Ok in Hd as [Hc Hr]. split; [apply Hc; by left|].
  assert (Hh : forall c, c <> "dur_s" ->
                 pd.has (enriched read_excel) c = pd.has df c).
  { intros c Hne. unfold pd.has. apply bool_decide_ext. rewrite Hc. tauto. }
  eapply Forall2_Forall_r; [apply Hr|]. apply Forall_forall.
  intros r _ r' [Hr' Hs]. unfold dur_s_spec.
  rewrite (Hh "total_duration"), (Hh "duration") in Hs by discriminate.
  assert (Hg : forall c, c <> "dur_s" -> pd.get r' c = pd.get r c).
  { intros c Hne. rewrite Hr'. apply get_insert_ne. congruence. }
  destruct (pd.has df "total_duration"); [|destruct (pd.has df "duration")].
  - destruct Hs as (p & t & Hp & Ht & Hv). exists p, t.
    rewrite (Hg "percent_duration"), (Hg "total_duration") by discriminate.
    auto.
  - rewrite (Hg "duration") by discriminate. exact Hs.
  - exact Hs.
Qed.

(** * Lemmas for the further properties *)

(** ** The loader *)

Lemma rename_length (f : string -> string) (df : pd.DataFrame) :
  length (pd.rows (pd.rename f df)) = length (pd.rows df).
Proof. unfold pd.rename. cbn [pd.rows]. apply length_fmap. Qed.

Lemma alias_rule_length (old new : string) (df : pd.DataFrame) :
  length (pd.rows (alias_rule old new df)) = length (pd.rows df).
Proof.
  unfold alias_rule. destruct (_ && _); [apply rename_length | reflexivity].
Qed.

Lemma alias_rule_columns (old new : string) (df : pd.DataFrame) (c : string) :
  old <> new ->
  c ∈ pd.columns (alias_rule old new df) <->
  (c = new /\ (new ∈ pd.columns df \/ old ∈ pd.columns df)) \/
  (c = old /\ old ∈ pd.columns df /\ new ∈ pd.columns df) \/
  (c <> new /\ c <> old /\ c ∈ pd.columns df).
Proof.
  intros Hne. unfold alias_rule, pd.has.
  destruct (decide (old ∈ pd.columns df)) as [Ho|Ho];
    [rewrite (bool_decide_true _ Ho) | rewrite (bool_decide_false _ Ho)];
    (destruct (decide (new ∈ pd.columns df)) as [Hn|Hn];
     [rewrite (bool_decide_true _ Hn) | rewrite (bool_decide_false _ Hn)]);
    cbn [andb negb].
  - destruct (decide (c = new)), (decide (c = old)); subst; tauto.
  - unfold pd.rename1, pd.rename. cbn [pd.columns].
    rewrite list_elem_of_fmap. split.
    + intros (c0 & -> & Hc0). case_bool_decide as Hc.
      * left. auto.
      * right. right. split_and!; [|done|done]. intros ->. done.
    + intros [[-> _]|[(-> & _ & ?)|(? & ? & Hc)]]; [|done|].
      * exists old. by rewrite bool_decide_true.
      * exists c. by rewrite bool_decide_false.
  - destruct (decide (c = new)), (decide (c = old)); subst; tauto.
  - destruct (decide (c = new)), (decide (c = old)); subst; tauto.
Qed.

(** [load_variant] as a chain of its steps. *)
Lemma load_variant_steps `{PyStr} (read_excel : string -> pd.DataFrame)
    (path label : string) :
  load_variant read_excel path label =
  let df := alias_rule "filename" "file_name"
              (alias_rule "transcription" "transcription_phonemes"
                 (alias_rule "totaldur" "total_duration"
                    (alias_rule "persent_duration" "percent_duration"
                       (pd.rename normalise (read_excel path))))) in
  pd.setitem "variant" (pd.broadcast df (Str label)) df.
Proof.
  unfold load_variant, alias_rule, normalise. cbn zeta.
  set (d0 := pd.rename _ _).
  set (d1 := if pd.has d0 "persent_duration" && negb (pd.has d0 "percent_duration")
             then _ else _).
  rewrite (andb_comm (negb (pd.has d1 "total_duration"))).
  set (d2 := if pd.has d1 "totaldur" && _ then _ else _).
  rewrite (andb_comm (negb (pd.has d2 "transcription_phonemes"))).
  set (d3 := if pd.has d2 "transcription" && _ then _ else _).
  rewrite (andb_comm (negb (pd.has d3 "file_name"))).
  reflexivity.
Qed.

Lemma alias_rule_new (old new : string) (df : pd.DataFrame) :
  old <> new ->
  new ∈ pd.columns (alias_rule old new df) <->
  new ∈ pd.columns df \/ old ∈ pd.columns df.
Proof. intros Hne. rewrite alias_rule_columns by exact Hne. intuition congruence. Qed.

Lemma alias_rule_old (old new : string) (df : pd.DataFrame) :
  old <> new ->
  old ∈ pd.columns (alias_rule old new df) <->
  old ∈ pd.columns df /\ new ∈ pd.columns df.
Proof. intros Hne. rewrite alias_rule_columns by exact Hne. intuition congruence. Qed.

Lemma alias_rule_other (old new : string) (df : pd.DataFrame) (c : string) :
  old <> new -> c <> old -> c <> new ->
  c ∈ pd.columns (alias_rule old new df) <-> c ∈ pd.columns df.
Proof. intros Hne Ho Hn. rewrite alias_rule_columns by exact Hne. intuition congruence. Qed.

(** The loader writes its label into every row. *)
Lemma load_variant_has_variant `{PyStr} (read_excel : string -> pd.DataFrame)
    (path label : string) :
  "variant" ∈ pd.columns (load_variant read_excel path label).
Proof. rewrite load_variant_steps. cbn zeta. apply setitem_columns. by left. Qed.

Lemma load_variant_rows_variant `{PyStr} (read_excel : string -> pd.DataFrame)
    (path label : string) :
  Forall (fun r => pd.get r "variant" = Str label)
         (pd.rows (load_variant read_excel path label)).
Proof.
  rewrite load_variant_steps. cbn zeta.
  unfold pd.setitem, pd.broadcast. cbn [pd.rows].
  rewrite zip_with_replicate_same. apply Forall_fmap, Forall_forall.
  intros r _. apply get_insert_eq.
Qed.

Lemma load_variant_length `{PyStr} (read_excel : string -> pd.DataFrame)
    (path label : string) :
  length (pd.rows (load_variant read_excel path label)) =
  length (pd.rows (read_excel path)).
Proof.
  rewrite load_variant_steps. cbn zeta.
  unfold pd.setitem, pd.broadcast. cbn [pd.rows].
  rewrite zip_with_replicate_same, length_fmap, !alias_rule_length.
  apply rename_length.
Qed.

(** The cell a renamed row has under [k]: the cell of the first column
    that is renamed to [k]. *)
Lemma lookup_rename_row (f : string -> string) (cols : list string) (r : Row)
    (k : string) :
  (list_to_map ((fun c => (f c, pd.get r c)) <$> cols) : Row) !! k =
  (fun c => pd.get r c) <$> List.find (fun c => bool_decide (f c = k)) cols.
Proof.
  induction cols as [|c cols IH]; [reflexivity|].
  cbn [fmap list_fmap list_to_map foldr List.find]. cbn [fst snd].
  case_bool_decide as Hc.
  - rewrite Hc. apply lookup_insert_eq.
  - rewrite lookup_insert_ne by exact Hc. apply IH.
Qed.

Lemma find_only {A : Type} (P : A -> bool) (x : A) (l : list A) :
  x ∈ l -> (forall y, y ∈ l -> P y = true <-> y = x) -> List.find P l = Some x.
Proof.
  induction l as [|a l IH]; intros Hx HP; [by apply elem_of_nil in Hx|].
  cbn [List.find]. destruct (P a) eqn:Ha.
  - f_equal. apply HP; [by left | exact Ha].
  - apply IH.
    + apply elem_of_cons in Hx as [->|Hx]; [|exact Hx].
      assert (P a = true) by (apply HP; [by left | reflexivity]). congruence.
    + intros y Hy. apply HP. by right.
Qed.

Lemma rename1_get_other (old new : string) (df : pd.DataFrame) (k : string) :
  k <> old -> k <> new -> k ∈ pd.columns df ->
  Forall2 (fun r r' => pd.get r' k = pd.get r k)
          (pd.rows df) (pd.rows (pd.rename1 old new df)).
Proof.
  intros Ho Hn Hk. unfold pd.rename1, pd.rename. cbn [pd.rows].
  apply Forall2_fmap_r, Forall_Forall2_diag, Forall_forall. intros r _.
  cbn [compose]. unfold pd.get at 1. rewrite lookup_rename_row.
  rewrite (find_only _ k); [reflexivity | exact Hk |].
  intros c _. rewrite bool_decide_eq_true. case_bool_decide; split; congruence.
Qed.

Lemma rename1_get_new (old new : string) (df : pd.DataFrame) :
  old ∈ pd.columns df -> new ∉ pd.columns df ->
  Forall2 (fun r r' => pd.get r' new = pd.get r old)
          (pd.rows df) (pd.rows (pd.rename1 old new df)).
Proof.
  intros Ho Hn. unfold pd.rename1, pd.rename. cbn [pd.rows].
  apply Forall2_fmap_r, Forall_Forall2_diag, Forall_forall. intros r _.
  cbn [compose]. unfold pd.get at 1. rewrite lookup_rename_row.
  rewrite (find_only _ old); [reflexivity | exact Ho |].
  intros c Hc. rewrite bool_decide_eq_true. case_bool_decide; split; congruence.
Qed.

Lemma Forall2_same {A : Type} (P : A -> A -> Prop) (l : list A) :
  (forall x, P x x) -> Forall2 P l l.
Proof. intros HP. apply Forall_Forall2_diag, Forall_forall. auto. Qed.

(** A column that an alias rule does not name keeps its cells. *)
Lemma alias_rule_get_other (old new : string) (df : pd.DataFrame) (k : string) :
  k <> old -> k <> new -> k ∈ pd.columns df ->
  Forall2 (fun r r' => pd.get r' k = pd.get r k)
          (pd.rows df) (pd.rows (alias_rule old new df)).
Proof.
  intros Ho Hn Hk. unfold alias_rule. destruct (_ && _).
  - by apply rename1_get_other.
  - by apply Forall2_same.
Qed.

(** When the rule fires, the canonical column gets the cells of the
    alias. *)
Lemma alias_rule_get_new (old new : string) (df : pd.DataFrame) :
  old ∈ pd.columns df -> new ∉ pd.columns df ->
  Forall2 (fun r r' => pd.get r' new = pd.get r old)
          (pd.rows df) (pd.rows (alias_rule old new df)).
Proof.
  intros Ho Hn. unfold alias_rule, pd.has.
  rewrite (bool_decide_true _ Ho), (bool_decide_false _ Hn). cbn [andb negb].
  by apply rename1_get_new.
Qed.

(** When the canonical column exists, the rule leaves the frame alone. *)
Lemma alias_rule_kept (old new : string) (df : pd.DataFrame) :
  new ∈ pd.columns df -> alias_rule old new df = df.
Proof.
  intros Hn. unfold alias_rule, pd.has. rewrite (bool_decide_true _ Hn).
  by rewrite andb_false_r.
Qed.

Lemma carries_trans (a b c : string) (d1 d2 d3 : pd.DataFrame) :
  carries a b d1 d2 -> carries b c d2 d3 -> carries a c d1 d3.
Proof.
  intros [_ H12] [Hc H23]. split; [exact Hc|].
  eapply Forall2_trans; [|exact H12|exact H23].
  intros r1 r2 r3 E1 E2. cbn beta in *. congruence.
Qed.

Lemma carries_other (old new k : string) (df : pd.DataFrame) :
  old <> new -> k <> old -> k <> new -> k ∈ pd.columns df ->
  carries k k df (alias_rule old new df).
Proof.
  intros Hne Ho Hn Hk. split.
  - by apply alias_rule_other.
  - by apply alias_rule_get_other.
Qed.

Lemma carries_rule (old new : string) (df : pd.DataFrame) :
  old <> new -> new ∈ pd.columns df \/ old ∈ pd.columns df ->
  carries (if bool_decide (new ∈ pd.columns df) then new else old) new
          df (alias_rule old new df).
Proof.
  intros Hne Hor. split; [by apply alias_rule_new|].
  case_bool_decide as Hn.
  - rewrite alias_rule_kept by exact Hn. by apply Forall2_same.
  - apply alias_rule_get_new; tauto.
Qed.

Lemma carries_setitem (c k : string) (v : cell) (df : pd.DataFrame) :
  k <> c -> k ∈ pd.columns df ->
  carries k k df (pd.setitem c (pd.broadcast df v) df).
Proof.
  intros Hne Hk. split; [apply setitem_columns; by right|].
  unfold pd.setitem, pd.broadcast. cbn [pd.rows].
  rewrite zip_with_replicate_same.
  apply Forall2_fmap_r, Forall_Forall2_diag, Forall_forall. intros r _.
  cbn [compose]. apply get_insert_ne. congruence.
Qed.

(** ** The concatenated sources *)

Lemma concat_columns (dfs : list pd.DataFrame) (c : string) :
  c ∈ pd.columns (pd.concat dfs) <-> exists df, df ∈ dfs /\ c ∈ pd.columns df.
Proof.
  unfold pd.concat. cbn [pd.columns]. rewrite elem_of_unique, list_elem_of_join.
  split.
  - intros (cs & Hc & Hcs). apply list_elem_of_fmap in Hcs as (df & -> & Hdf). eauto.
  - intros (df & Hdf & Hc). exists (pd.columns df). split; [exact Hc|].
    by apply list_elem_of_fmap_2.
Qed.

Lemma concatenated_rows `{PyStr} (read_excel : string -> pd.DataFrame) :
  pd.rows (concatenated read_excel) =
  pd.rows (load_variant read_excel RUS_FILE RUS_LABEL) ++
  pd.rows (load_variant read_excel BIL_FILE BIL_LABEL) ++
  pd.rows (load_variant read_excel KAB_FILE KAB_LABEL).
Proof.
  unfold concatenated, pd.concat. cbn [pd.rows fmap list_fmap mjoin list_join].
  by rewrite app_nil_r.
Qed.

Lemma concatenated_variant `{PyStr} (read_excel : string -> pd.DataFrame) :
  "variant" ∈ pd.columns (concatenated read_excel).
Proof.
  apply concat_columns. eexists. split; [by left|].
  apply load_variant_has_variant.
Qed.

Lemma with_dur_s_Raise (df : pd.DataFrame) (e : exn) :
  with_dur_s df = Raise e -> e = TypeError /\ pd.has df "total_duration" = true.
Proof.
  unfold with_dur_s. destruct (pd.has df "total_duration"); [|by destruct (pd.has df "duration")].
  intros He. split; [|reflexivity].
  assert (Hf : forall c e0, py.to_float c = Raise e0 -> e0 = TypeError)
    by (intros [] e0; simpl; congruence).
  destruct (pd.truediv _ _) as [q|e0] eqn:Hq; cbn [mbind result_bind] in He.
  - destruct (pd.mul _ _) as [d|e1] eqn:Hd; cbn [mbind result_bind] in He; [discriminate|].
    injection He as <-. unfold pd.mul in Hd.
    apply mapR_Raise in Hd as (ab & _ & Hab).
    destruct (py.to_float ab.1) as [x|e2] eqn:Hx; cbn [mbind result_bind] in Hab.
    + destruct (py.to_float ab.2) as [y|e3] eqn:Hy; cbn [mbind result_bind] in Hab;
        [discriminate|]. injection Hab as <-. by apply (Hf ab.2).
    + injection Hab as <-. by apply (Hf ab.1).
  - injection He as <-. unfold pd.truediv in Hq.
    apply mapR_Raise in Hq as (c & _ & Hc).
    destruct (py.to_float c) as [x|e2] eqn:Hx; cbn [mbind result_bind] in Hc;
      [discriminate|]. injection Hc as <-. by apply (Hf c).
Qed.

Lemma detect_emotion_range `{PyStr} (name : cell) : detect_emotion name ∈ EMOTIONS.
Proof.
  unfold detect_emotion, EMOTIONS.
  destruct (py.contains "гнев" _); [by left|].
  destruct (py.contains "радост" _); [right; by left|].
  destruct (_ || _); [do 2 right; by left | do 3 right; by left].
Qed.


Lemma Forall2_fmap_keys {A B C : Type} (f : A -> C) (g : B -> C)
    (l : list A) (k : list B) :
  Forall2 (fun x y => g y = f x) l k -> g <$> k = f <$> l.
Proof. intros Hf. induction Hf as [|x y l k Hxy _ IH]; [done|]. cbn. by rewrite Hxy, IH. Qed.

Lemma fmap_constant {A B : Type} (f : A -> B) (v : B) (l : list A) :
  Forall (fun x => f x = v) l -> f <$> l = replicate (length l) v.
Proof. intros Hf. induction Hf as [|x l Hx _ IH]; [done|]. cbn. by rewrite Hx, IH. Qed.

Lemma kept_rows_variant `{PyStr} (read_excel : string -> pd.DataFrame)
    (path label : string) :
  (fun r => pd.get r "variant") <$> kept_rows read_excel path label =
  replicate (length (kept_rows read_excel path label)) (Str label).
Proof.
  apply fmap_constant. unfold kept_rows. apply Forall_forall. intros r Hr.
  apply list_elem_of_filter in Hr as [_ Hr].
  exact (proj1 (Forall_forall _ _) (load_variant_rows_variant read_excel path label) r Hr).
Qed.

Lemma with_emotion_derived `{PyStr} (df : pd.DataFrame) :
  "emotion" ∉ pd.columns df ->
  pd.rows (with_emotion df) =
  (fun r => <["emotion" := Str (detect_emotion (pd.get r "file_name"))]> r)
    <$> pd.rows df.
Proof.
  intros He. unfold with_emotion, pd.has. rewrite (bool_decide_false _ He).
  unfold pd.setitem, pd.col. cbn [pd.rows].
  by rewrite <- list_fmap_compose, zip_with_fmap_same.
Qed.

Lemma with_emotion_present `{PyStr} (df : pd.DataFrame) :
  "emotion" ∈ pd.columns df -> with_emotion df = df.
Proof. intros He. unfold with_emotion, pd.has. by rewrite (bool_decide_true _ He). Qed.

Lemma enriched_derived `{PyStr} (read_excel : string -> pd.DataFrame) :
  "emotion" ∉ pd.columns (concatenated read_excel) ->
  pd.rows (enriched read_excel) =
  (fun r => <["emotion" := Str (detect_emotion (pd.get r "file_name"))]> r)
    <$> pd.rows (keep_vowels (concatenated read_excel)).
Proof. intros He. unfold enriched. by apply with_emotion_derived. Qed.

Lemma enriched_present `{PyStr} (read_excel : string -> pd.DataFrame) :
  "emotion" ∈ pd.columns (concatenated read_excel) ->
  pd.rows (enriched read_excel) =
  filter (fun r => ~ is_consonant r) (pd.rows (concatenated read_excel)).
Proof.
  intros He. unfold enriched.
  rewrite (with_emotion_present (keep_vowels (concatenated read_excel)) He).
  apply keep_vowels_rows.
Qed.

(** ** Records and zones *)

Lemma measurements_zone (r : Row) (z : cell) :
  measurements (<["zone" := z]> r) = measurements r.
Proof. unfold measurements. by rewrite delete_insert_eq. Qed.

Lemma measurements_v_index (r : Row) (v : cell) :
  measurements (<["v_index" := v]> r) = measurements r.
Proof.
  unfold measurements.
  rewrite (delete_delete _ "v_index" "zone"), delete_insert_eq.
  apply delete_delete.
Qed.

Lemma zone_blocks (n : nat) :
  (fun j => zone_for_row (Z.of_nat n) (Z.of_nat j + 1)) <$> seq 0 n =
  replicate (n `min` 3) "начало" ++
  replicate (n - 6) "середина" ++
  replicate ((n - 3) `min` 3) "конец".
Proof.
  apply list_eq. intros i. rewrite list_lookup_fmap.
  destruct (decide (i < n)) as [Hi|Hi].
  - rewrite lookup_seq_lt by exact Hi. cbn [fmap option_fmap option_map Nat.add].
    unfold zone_for_row.
    destruct (decide (i < n `min` 3)) as [H1|H1].
    + rewrite lookup_app_l by (rewrite length_replicate; lia).
      rewrite lookup_replicate_2 by lia.
      destruct (Z.leb_spec (Z.of_nat i + 1) 3); [reflexivity | lia].
    + rewrite lookup_app_r by (rewrite length_replicate; lia).
      rewrite length_replicate.
      destruct (Z.leb_spec (Z.of_nat i + 1) 3); [lia|].
      destruct (decide (i - n `min` 3 < n - 6)) as [H2|H2].
      * rewrite lookup_app_l by (rewrite length_replicate; lia).
        rewrite lookup_replicate_2 by lia.
        destruct (Z.gtb_spec (Z.of_nat i + 1) (Z.of_nat n - 3)); [lia | reflexivity].
      * rewrite lookup_app_r by (rewrite length_replicate; lia).
        rewrite length_replicate, lookup_replicate_2 by lia.
        destruct (Z.gtb_spec (Z.of_nat i + 1) (Z.of_nat n - 3)); [reflexivity | lia].
  - rewrite (lookup_ge_None_2 (seq 0 n)) by (rewrite length_seq; lia).
    symmetry. apply lookup_ge_None_2. rewrite !length_app, !length_replicate. lia.
Qed.

(** ** The zone table *)

Lemma zoned_columns_elem (cs : list string) (c : string) :
  c ∈ zoned_columns cs <-> c ∈ cs \/ c = "v_index" \/ c = "zone".
Proof.
  unfold zoned_columns.
  repeat case_bool_decide;
    repeat match goal with
           | H : context [_ ∈ _ ++ _] |- _ => rewrite elem_of_app in H
           | H : context [_ ∈ [_]] |- _ => rewrite list_elem_of_singleton in H
           end;
    rewrite ?elem_of_app, ?list_elem_of_singleton;
    intuition (subst; try discriminate; auto).
Qed.


Lemma zone_table_Ok (dz t : pd.DataFrame) :
  (zones ← pd.groupby_agg ["emotion"; "variant"; "zone"]
             (if pd.has dz "dur_s"
              then [("percent_duration", [pd.Mean; pd.Std])] ++
                   [("dur_s", [pd.Mean; pd.Std])]
              else [("percent_duration", [pd.Mean; pd.Std])]) dz;
   if pd.has dz "dur_s"
   then pd.set_columns ZONE_WITH_DURATION zones
   else pd.set_columns ZONE_PLAIN zones) = Ok t ->
  pd.columns t = (if pd.has dz "dur_s" then ZONE_WITH_DURATION else ZONE_PLAIN) /\
  Forall2 (zone_row dz) (pd.group_keys ["emotion"; "variant"; "zone"] (pd.rows dz))
          (pd.rows t).
Proof.
  intros Ht. apply bind_Ok in Ht as (tbl & Hg & Ht).
  unfold pd.groupby_agg in Hg. destruct (pd.missing_column dz _); [discriminate|].
  apply bind_Ok in Hg as (b & Hb & [= <-]).
  apply mapR_Ok, Forall2_with_elem in Hb.
  unfold pd.set_columns in Ht. cbn [pd.width pd.body] in Ht.
  destruct (pd.has dz "dur_s") eqn:Hd; cbn in Ht; injection Ht as <-;
    (split; [reflexivity|]); cbn [pd.rows]; apply Forall2_fmap_r;
    (eapply Forall2_impl; [apply Hb|]); intros k cs [Hk Hcs]; cbn beta in Hcs;
    apply group_keys_length in Hk;
    destruct k as [|e [|v [|z [|? ?]]]]; try discriminate Hk;
    apply bind_Ok in Hcs as (stats & Hs & [= <-]);
    apply mapR_Ok in Hs;
    cbn [pd.agg_columns app mbind list_bind fmap list_fmap fst snd] in Hs;
    repeat match goal with
           | H : Forall2 _ (_ :: _) _ |- _ =>
               apply Forall2_cons_inv_l in H as (? & ? & ? & H & ->)
           | H : Forall2 _ [] _ |- _ => apply Forall2_nil_inv_l in H as ->
           end;
    unfold zone_row, zone_stat, pd.get;
    cbn [fmap list_fmap app zip zip_with list_to_map ZONE_WITH_DURATION ZONE_PLAIN];
    repeat (rewrite ?lookup_insert_eq; rewrite ?lookup_insert_ne by discriminate);
    cbn [default]; repeat split; try assumption; try reflexivity; try congruence.
Qed.

Lemma zone_for_cells_range (a b : cell) :
  exists z, zone_for_cells a b = Str z /\ z ∈ ZONES.
Proof.
  unfold zone_for_cells, zone_for_row, ZONES.
  destruct a as [| n |]; try (eexists; split; [reflexivity | right; by left]).
  destruct b as [| i |]; try (eexists; split; [reflexivity | right; by left]).
  destruct (i <=? 3)%Z; [eexists; split; [reflexivity | by left]|].
  destruct (i >? n - 3)%Z; eexists; (split; [reflexivity|]).
  - do 2 right. by left.
  - right. by left.
Qed.

(** Every record of the result of the zone assigner has one of the three
    zone labels. *)
Lemma zoned_rows_zone (l : list Row) (r : Row) :
  r ∈ zoned_rows l -> exists z, pd.get r "zone" = Str z /\ z ∈ ZONES.
Proof.
  unfold zoned_rows. intros (r1 & -> & _)%list_elem_of_fmap.
  rewrite get_insert_eq. apply zone_for_cells_range.
Qed.

(** ** Aggregation *)

Lemma observed_numeric (s : list cell) :
  Forall (fun c => pd.text_of c = None) s -> exists xs, pd.observed s = Ok xs.
Proof.
  intros Hs. unfold pd.observed.
  destruct (mapR_total py.to_float s) as [xs Hxs].
  - intros c Hc. pose proof (proj1 (Forall_forall _ _) Hs c Hc) as Ht.
    destruct c; [discriminate | by eexists | by eexists].
  - rewrite Hxs. by eexists.
Qed.

Lemma aggregate_numeric (f : pd.aggfn) (s : list cell) :
  Forall (fun c => pd.text_of c = None) s -> exists v, pd.aggregate f s = Ok v.
Proof.
  intros Hs. unfold pd.aggregate.
  destruct (observed_numeric s Hs) as [xs ->]. by eexists.
Qed.

Lemma aggregate_Raise (f : pd.aggfn) (s : list cell) (e : exn) :
  pd.aggregate f s = Raise e -> e = TypeError.
Proof.
  unfold pd.aggregate, pd.observed.
  destruct (mapR py.to_float s) as [xs|e0] eqn:Hm; [discriminate|].
  cbn [mbind result_bind]. intros [= <-].
  apply mapR_Raise in Hm as (c & _ & Hc). destruct c; simpl in Hc; congruence.
Qed.

(** ** Columns of the sources *)

Lemma load_variant_canonical `{PyStr} (read_excel : string -> pd.DataFrame)
    (path label old new : string) :
  (old, new) ∈ ALIASES ->
  new ∈ pd.columns (load_variant read_excel path label) <->
  new ∈ normalise <$> pd.columns (read_excel path) \/
  old ∈ normalise <$> pd.columns (read_excel path).
Proof.
  intros Hp. unfold ALIASES in Hp. rewrite load_variant_steps. cbn zeta.
  change (normalise <$> pd.columns (read_excel path))
    with (pd.columns (pd.rename normalise (read_excel path))).
  set (d0 := pd.rename normalise (read_excel path)).
  rewrite setitem_columns.
  repeat (apply elem_of_cons in Hp as [[= -> ->]|Hp]); [| | | |by apply elem_of_nil in Hp].
  - rewrite !alias_rule_other by discriminate. rewrite alias_rule_new by discriminate.
    intuition discriminate.
  - rewrite !alias_rule_other by discriminate. rewrite alias_rule_new by discriminate.
    rewrite !alias_rule_other by discriminate. intuition discriminate.
  - rewrite !alias_rule_other by discriminate. rewrite alias_rule_new by discriminate.
    rewrite !alias_rule_other by discriminate. intuition discriminate.
  - rewrite alias_rule_new by discriminate.
    rewrite !alias_rule_other by discriminate. intuition discriminate.
Qed.

Lemma load_variant_plain `{PyStr} (read_excel : string -> pd.DataFrame)
    (path label c : string) :
  c ∈ ["emotion"; "duration"] ->
  c ∈ pd.columns (load_variant read_excel path label) <->
  c ∈ normalise <$> pd.columns (read_excel path).
Proof.
  intros Hc. rewrite load_variant_steps. cbn zeta.
  change (normalise <$> pd.columns (read_excel path))
    with (pd.columns (pd.rename normalise (read_excel path))).
  set (d0 := pd.rename normalise (read_excel path)).
  rewrite setitem_columns.
  repeat (apply elem_of_cons in Hc as [->|Hc]); [| |by apply elem_of_nil in Hc];
    rewrite !alias_rule_other by discriminate; intuition discriminate.
Qed.

Lemma concatenated_columns `{PyStr} (read_excel : string -> pd.DataFrame) (c : string) :
  c ∈ pd.columns (concatenated read_excel) <->
  c ∈ pd.columns (load_variant read_excel RUS_FILE RUS_LABEL) \/
  c ∈ pd.columns (load_variant read_excel BIL_FILE BIL_LABEL) \/
  c ∈ pd.columns (load_variant read_excel KAB_FILE KAB_LABEL).
Proof.
  unfold concatenated. rewrite concat_columns. split.
  - intros (df & Hdf & Hc).
    repeat (apply elem_of_cons in Hdf as [->|Hdf]; [tauto|]).
    by apply elem_of_nil in Hdf.
  - intros [Hc|[Hc|Hc]]; eexists; (split; [|exact Hc]).
    + by left.
    + right. by left.
    + do 2 right. by left.
Qed.

Lemma offered_files `{PyStr} (read_excel : string -> pd.DataFrame) (c : string) :
  offered read_excel c <->
  c ∈ normalise <$> pd.columns (read_excel RUS_FILE) \/
  c ∈ normalise <$> pd.columns (read_excel BIL_FILE) \/
  c ∈ normalise <$> pd.columns (read_excel KAB_FILE).
Proof.
  unfold offered, FILES. split.
  - intros (p & Hp & Hc).
    repeat (apply elem_of_cons in Hp as [->|Hp]; [tauto|]).
    by apply elem_of_nil in Hp.
  - intros [Hc|[Hc|Hc]]; eexists; (split; [|exact Hc]).
    + by left.
    + right. by left.
    + do 2 right. by left.
Qed.

(** ** The pivot *)

Lemma aggregate_Flt (f : pd.aggfn) (s : list cell) (c : cell) :
  pd.aggregate f s = Ok c -> exists x, c = Flt x.
Proof.
  unfold pd.aggregate. destruct (pd.observed s) as [xs|e]; [|discriminate].
  cbn [mbind result_bind]. intros [= <-]. by eexists.
Qed.

Lemma zone_table_mean_numeric (dz : pd.DataFrame) (keys : list (list string))
    (l : list Row) :
  Forall2 (zone_row dz) keys l ->
  Forall (fun r => pd.text_of (pd.get r "Средний_%_длительности") = None) l.
Proof.
  intros Hr. eapply Forall2_Forall_r; [exact Hr|]. apply Forall_forall.
  intros k _ r (_ & Hm & _). apply aggregate_Flt in Hm as [x ->]. reflexivity.
Qed.



(** The pivot of a zone table never fails: the table has the four columns
    the pivot names, and its means are numbers. *)
Lemma pivot_summary_total (df zt : pd.DataFrame) :
  compute_zone_table df = Ok zt ->
  exists pv : pd.DataFrame, pivot_summary zt = Ok pv.
Proof.
  intros Ht. unfold compute_zone_table in Ht.
  destruct (assign_zones df) as [dz|e] eqn:Hz; [|discriminate].
  cbn [mbind result_bind] in Ht. apply zone_table_Ok in Ht as [Hc Hr].
  apply zone_table_mean_numeric in Hr.
  unfold pivot_summary, pd.pivot_table.
  assert (Hm : pd.missing_column zt
                 (["Эмоция"; "Зона"] ++ ["Вариант"; "Средний_%_длительности"]) = None).
  { unfold pd.missing_column, pd.has. rewrite Hc.
    destruct (pd.has dz "dur_s"); vm_compute; reflexivity. }
  rewrite Hm.
  destruct (mapR_total
              (fun k =>
                 xs ← pd.observed ((fun r => pd.get r "Средний_%_длительности")
                                     <$> pd.group_rows (["Эмоция"; "Зона"] ++ ["Вариант"])
                                           k (pd.rows zt));
                 Ok (k, pd.mean xs))
              (pd.group_keys (["Эмоция"; "Зона"] ++ ["Вариант"]) (pd.rows zt)))
    as [groups Hg].
  { intros k _.
    destruct (observed_numeric
                ((fun r => pd.get r "Средний_%_длительности")
                   <$> pd.group_rows (["Эмоция"; "Зона"] ++ ["Вариант"]) k (pd.rows zt)))
      as [xs Hxs].
    - apply Forall_fmap, Forall_forall. intros r Hin.
      apply list_elem_of_filter in Hin as [_ Hin].
      exact (proj1 (Forall_forall _ _) Hr r Hin).
    - rewrite Hxs. by eexists. }
  rewrite Hg. cbn [mbind result_bind]. by eexists.
Qed.

(** ** Labels *)

Lemma has_text_accessible (s : list cell) :
  pd.has_text s = true -> pd.str_accessible s = true.
Proof. destruct s; [reflexivity | exact (fun H => H)]. Qed.

Lemma str_accessible_text (s : list cell) :
  pd.str_accessible s = false -> pd.has_text s = false.
Proof. destruct s; [discriminate | exact (fun H => H)]. Qed.




(** * The claims *)

(** C1: in the result of the zone assigner, the zone of a record of a
    group of size [n] is a function of its [v_index] and [n] alone: start
    when [v_index <= 3], otherwise end when [v_index > n - 3], otherwise
    middle.  The start test comes first, so it wins whenever both tests
    hold, and for [n = 10] the zones are start for 1..3, middle for 4..7 and
    end for 8..10. *)
Theorem zone_by_index_and_size (df df' : pd.DataFrame) (k : list string) (r : Row) :
  assign_zones df = Ok df' ->
  r ∈ pd.rows df' ->
  pd.group_key utterance r = Some k ->
  let n := Z.of_nat (length (pd.group_rows utterance k (pd.rows df'))) in
  (exists i : Z,
     pd.get r "v_index" = Int i /\
     pd.get r "zone" =
       Str (if (i <=? 3)%Z then "начало"
            else if (i >? n - 3)%Z then "конец" else "середина")) /\
  (forall m i : Z, (i <= 3)%Z -> zone_for_row m i = "начало") /\
  zone_for_row 10 <$> seqZ 1 10 =
    ["начало"; "начало"; "начало"; "середина"; "середина"; "середина";
     "середина"; "конец"; "конец"; "конец"].
Proof.
  intros Hz Hr Hk n. split; [|split; [|done]].
  - apply assign_zones_Ok in Hz as (_ & _ & _ & _ & ->). cbn [pd.rows] in *.
    assert (Hg : r ∈ pd.group_rows utterance k (zoned_rows (pd.rows df)))
      by (by apply list_elem_of_filter).
    subst n. rewrite zoned_rows_group in Hg |- *. rewrite length_imap.
    apply elem_of_lookup_imap in Hg as (j & x & -> & _).
    exists (Z.of_nat j + 1)%Z. split.
    + rewrite get_insert_ne by done. apply get_insert_eq.
    + by rewrite get_insert_eq.
  - intros m i Hi. unfold zone_for_row.
    by rewrite (proj2 (Z.leb_le i 3) Hi).
Qed.

Lemma zone_by_index_and_size_witness :
  assign_zones Demo.interleaved = Ok Demo.interleaved_zoned /\
  Demo.fourth ∈ pd.rows Demo.interleaved_zoned /\
  pd.group_key utterance Demo.fourth = Some Demo.KEY_A /\
  exists i : Z,
    pd.get Demo.fourth "v_index" = Int i /\
    pd.get Demo.fourth "zone" =
      Str (if (i <=? 3)%Z then "начало"
           else if (i >? Z.of_nat
                           (length (pd.group_rows utterance Demo.KEY_A
                                      (pd.rows Demo.interleaved_zoned))) - 3)%Z
           then "конец" else "середина").
Proof.
  assert (H1 : assign_zones Demo.interleaved = Ok Demo.interleaved_zoned)
    by (vm_compute; reflexivity).
  assert (H2 : Demo.fourth ∈ pd.rows Demo.interleaved_zoned)
    by (apply (list_elem_of_lookup_2 _ 3%nat); vm_compute; reflexivity).
  assert (H3 : pd.group_key utterance Demo.fourth = Some Demo.KEY_A)
    by (vm_compute; reflexivity).
  repeat split; try assumption.
  exact (proj1 (zone_by_index_and_size _ _ _ _ H1 H2 H3)).
Defined.

(** C2 as stated fails: a source with an [emotion] column and no
    [file_name] passes the assembler; the run prints the overall table and
    then ends in the error for the missing [file_name]. *)
Lemma schema_error_after_output :
  run (main (H:=Sample.runtime) Demo.anonymous_disk) =
    ([PrintStr "Общая таблица по эмоциям и языкам:";
      PrintFrame Demo.anonymous_overall],
     Raise (ValueError MSG_FILE_NAME)) /\
  schema_error (ValueError MSG_FILE_NAME) = true /\
  [PrintStr "Общая таблица по эмоциям и языкам:";
   PrintFrame Demo.anonymous_overall] <> [].
Proof. split; [|split]; [vm_compute; reflexivity | vm_compute; reflexivity | discriminate]. Qed.

(** C2, amended: when a run ends in an error for a missing column,
    either the assembler raised it and nothing has been printed, or the
    zone assigner raised it for a missing [file_name] and the heading and
    the overall table, and nothing else, have been printed before. *)
Theorem schema_error_and_output `{PyStr} (read_excel : string -> pd.DataFrame)
    (out : list output) (e : exn) :
  run (main read_excel) = (out, Raise e) ->
  schema_error e = true ->
  (prepare_full_dataframe read_excel = Raise e /\ out = []) \/
  (exists df t : pd.DataFrame,
     prepare_full_dataframe read_excel = Ok df /\
     compute_overall_table df = Ok t /\
     ("file_name" ∉ pd.columns df) /\
     assign_zones df = Raise e /\
     e = ValueError MSG_FILE_NAME /\
     out = [PrintStr "Общая таблица по эмоциям и языкам:"; PrintFrame t]).
Proof.
  unfold run, main, lift, print. unfold mbind, IO_bind.
  destruct (prepare_full_dataframe read_excel) as [df|e0] eqn:Hp.
  2: { intros [= <- <-] _. left. split; reflexivity. }
  destruct (compute_overall_table df) as [t|e0] eqn:Ho.
  2: { intros [= <- <-] Hs. apply library_only_overall in Ho. congruence. }
  cbn [app]. destruct (compute_zone_table df) as [zt|e0] eqn:Hz.
  2: { intros [= <- <-] Hs. right. exists df, t.
       pose proof (compute_zone_table_schema _ _ Hz Hs) as Ha.
       destruct (assign_zones_schema _ _ Ha Hs) as [Hf He].
       repeat split; assumption || reflexivity. }
  cbn [app].
  destruct (pd.pivot_table _ _ _ zt) as [pv|e0] eqn:Hpv.
  - intros [= _ ?].
  - intros [= <- <-] Hs. apply library_only_pivot_table in Hpv. congruence.
Qed.

Lemma schema_error_and_output_witness :
  run (main (H:=Sample.runtime) Demo.unmeasured_disk) = ([], Raise (ValueError MSG_PERCENT)) /\
  schema_error (ValueError MSG_PERCENT) = true /\
  ((prepare_full_dataframe (H:=Sample.runtime) Demo.unmeasured_disk
    = Raise (ValueError MSG_PERCENT) /\ @nil output = []) \/
   (exists df t : pd.DataFrame,
      prepare_full_dataframe (H:=Sample.runtime) Demo.unmeasured_disk = Ok df /\
      compute_overall_table df = Ok t /\
      ("file_name" ∉ pd.columns df) /\
      assign_zones df = Raise (ValueError MSG_PERCENT) /\
      ValueError MSG_PERCENT = ValueError MSG_FILE_NAME /\
      @nil output = [PrintStr "Общая таблица по эмоциям и языкам:"; PrintFrame t])).
Proof.
  assert (H1 : run (main (H:=Sample.runtime) Demo.unmeasured_disk)
               = ([], Raise (ValueError MSG_PERCENT))) by (vm_compute; reflexivity).
  assert (H2 : schema_error (ValueError MSG_PERCENT) = true) by (vm_compute; reflexivity).
  split; [exact H1|]. split; [exact H2|].
  exact (schema_error_and_output (H:=Sample.runtime) _ _ _ H1 H2).
Defined.



(** C4: in the result of the zone assigner the [v_index] values of a group
    of size [n], read in order, are 1, 2, ..., [n]: every value from 1 to
    [n] once, without gap and without repetition. *)
Theorem v_index_contiguous (df df' : pd.DataFrame) (k : list string) :
  assign_zones df = Ok df' ->
  (fun r => pd.get r "v_index") <$> pd.group_rows utterance k (pd.rows df') =
  Int <$> seqZ 1 (Z.of_nat (length (pd.group_rows utterance k (pd.rows df')))).
Proof.
  intros Hz. apply assign_zones_Ok in Hz as (_ & _ & _ & _ & ->).
  cbn [pd.rows]. rewrite zoned_rows_group, length_imap, fmap_imap.
  set (g := pd.group_rows utterance k (pd.rows df)).
  rewrite (imap_ext _ (fun j _ => Int (Z.of_nat j + 1))).
  - rewrite imap_seq_0. unfold seqZ. by rewrite Nat2Z.id, <- !list_fmap_compose.
  - intros j r _. cbn [compose]. rewrite get_insert_ne by done. apply get_insert_eq.
Qed.

Lemma v_index_contiguous_witness :
  assign_zones Demo.interleaved = Ok Demo.interleaved_zoned /\
  (fun r => pd.get r "v_index")
    <$> pd.group_rows utterance Demo.KEY_A (pd.rows Demo.interleaved_zoned) =
  Int <$> seqZ 1 (Z.of_nat (length (pd.group_rows utterance Demo.KEY_A
                                      (pd.rows Demo.interleaved_zoned)))).
Proof.
  assert (H1 : assign_zones Demo.interleaved = Ok Demo.interleaved_zoned)
    by (vm_compute; reflexivity).
  split; [assumption|].
  exact (v_index_contiguous _ _ Demo.KEY_A H1).
Defined.

(** C5: the zone assigner is idempotent: when it returns, a second run on
    its own result returns too and gives every record the same [v_index]
    and the same zone; the second result is the first one. *)
Theorem assign_zones_idempotent (df df' : pd.DataFrame) :
  assign_zones df = Ok df' ->
  exists df'',
    assign_zones df' = Ok df'' /\
    (fun r => (pd.get r "v_index", pd.get r "zone")) <$> pd.rows df'' =
    (fun r => (pd.get r "v_index", pd.get r "zone")) <$> pd.rows df' /\
    df'' = df'.
Proof.
  intros Hz. exists df'. split; [|done].
  apply assign_zones_Ok in Hz as (Hf & Hv & He & Hne & ->).
  apply assign_zones_Ok. cbn [pd.rows pd.columns].
  assert (Hsub : forall c, c ∈ pd.columns df -> c ∈ zoned_columns (pd.columns df)).
  { intros c Hc. unfold zoned_columns.
    repeat case_bool_decide; rewrite ?elem_of_app; auto. }
  split_and!; auto.
  - intros Hnil. apply (f_equal length) in Hnil.
    rewrite zoned_rows_length in Hnil. by destruct (pd.rows df).
  - by rewrite zoned_columns_idem, zoned_rows_idem.
Qed.

Lemma assign_zones_idempotent_witness :
  assign_zones Demo.interleaved = Ok Demo.interleaved_zoned /\
  exists df'',
    assign_zones Demo.interleaved_zoned = Ok df'' /\
    (fun r => (pd.get r "v_index", pd.get r "zone")) <$> pd.rows df'' =
    (fun r => (pd.get r "v_index", pd.get r "zone"))
      <$> pd.rows Demo.interleaved_zoned /\
    df'' = Demo.interleaved_zoned.
Proof.
  assert (H1 : assign_zones Demo.interleaved = Ok Demo.interleaved_zoned)
    by (vm_compute; reflexivity).
  split; [assumption|].
  exact (assign_zones_idempotent _ _ H1).
Defined.




(** C7: the emotion classifier lower-cases the name and returns the
    category of the first of the substrings for anger, joy and neutral
    (Cyrillic or Latin) that the lower-cased name contains, in that order,
    and the category other when it contains none of them. *)
Theorem detect_emotion_first_match `{PyStr} (name : cell) :
  let s := lower (py.str name) in
  (detect_emotion name = "гнев" <-> is_substring "гнев" s) /\
  (detect_emotion name = "радость" <->
     ~ is_substring "гнев" s /\ is_substring "радост" s) /\
  (detect_emotion name = "нейтральная" <->
     ~ is_substring "гнев" s /\ ~ is_substring "радост" s /\
     (is_substring "нейтр" s \/ is_substring "neutr" s)) /\
  (detect_emotion name = "другое" <->
     ~ is_substring "гнев" s /\ ~ is_substring "радост" s /\
     ~ is_substring "нейтр" s /\ ~ is_substring "neutr" s).
Proof.
  intros s. unfold detect_emotion. fold s.
  destruct (py.contains "гнев" s) eqn:Ha;
    [apply contains_spec in Ha | apply not_contains in Ha];
  (destruct (py.contains "радост" s) eqn:Hj;
    [apply contains_spec in Hj | apply not_contains in Hj]);
  (destruct (py.contains "нейтр" s) eqn:Hn;
    [apply contains_spec in Hn | apply not_contains in Hn]);
  (destruct (py.contains "neutr" s) eqn:Hl;
    [apply contains_spec in Hl | apply not_contains in Hl]);
  simpl; repeat split; try done; try tauto; try (intros; exfalso; tauto).
Qed.

(** C8: in a dataset the assembler returns, [dur_s] follows the priority
    of the duration sources: with a [total_duration] column every record has
    [dur_s = percent_duration / 100 * total_duration]; otherwise, with a
    [duration] column, [dur_s = duration]; otherwise [dur_s] is missing in
    every record.  Having neither source is not an error: without a
    [total_duration] column the assembler returns whenever the required
    columns are there and the transcription column holds some text (on a
    transcription column of numbers or blanks only, the [.str] accessor
    raises before the duration is looked at). *)
Theorem dur_s_priority `{PyStr} (read_excel : string -> pd.DataFrame) :
  (forall df : pd.DataFrame,
     prepare_full_dataframe read_excel = Ok df ->
     "dur_s" ∈ pd.columns df /\
     forall r : Row, r ∈ pd.rows df ->
       if pd.has df "total_duration"
       then exists p t : float,
              py.to_float (pd.get r "percent_duration") = Ok p /\
              py.to_float (pd.get r "total_duration") = Ok t /\
              pd.get r "dur_s" = Flt (p / 100 * t)
       else if pd.has df "duration"
       then pd.get r "dur_s" = pd.get r "duration"
       else pd.get r "dur_s" = np.nan) /\
  (pd.has (concatenated read_excel) "total_duration" = false ->
   "transcription_phonemes" ∈ pd.columns (concatenated read_excel) ->
   pd.has_text (pd.col (concatenated read_excel) "transcription_phonemes") = true ->
   "emotion" ∈ pd.columns (concatenated read_excel) \/
   "file_name" ∈ pd.columns (concatenated read_excel) ->
   "percent_duration" ∈ pd.columns (concatenated read_excel) ->
   exists df : pd.DataFrame, prepare_full_dataframe read_excel = Ok df).
Proof.
  split.
  - intros df Hp. apply assembled_dur_s in Hp as [Hc Hr]. split; [exact Hc|].
    intros r Hin. exact (proj1 (Forall_forall _ _) Hr r Hin).
  - intros Ht Htr Htx He Hpc.
    destruct (with_dur_s_total (enriched read_excel)) as [df Hdf].
    { rewrite has_enriched by discriminate. exact Ht. }
    exists df. apply prepare_full_dataframe_Ok.
    split_and!; [exact Htr | by apply has_text_accessible | exact He | exact Hpc
                | exact Hdf].
Qed.

Lemma dur_s_priority_witness :
  prepare_full_dataframe (H:=Sample.runtime) Demo.timed_disk = Ok Demo.timed_assembled /\
  "dur_s" ∈ pd.columns Demo.timed_assembled /\
  exists df : pd.DataFrame,
    prepare_full_dataframe (H:=Sample.runtime) Demo.u1_disk = Ok df.
Proof.
  assert (H1 : prepare_full_dataframe (H:=Sample.runtime) Demo.timed_disk
               = Ok Demo.timed_assembled) by (vm_compute; reflexivity).
  split; [exact H1|]. split.
  - exact (proj1 (proj1 (dur_s_priority (H:=Sample.runtime) Demo.timed_disk) _ H1)).
  - apply (proj2 (dur_s_priority (H:=Sample.runtime) Demo.u1_disk)).
    + vm_compute; reflexivity.
    + apply (bool_decide_unpack _). vm_compute. exact I.
    + vm_compute; reflexivity.
    + left. apply (bool_decide_unpack _). vm_compute. exact I.
    + apply (bool_decide_unpack _). vm_compute. exact I.
Defined.

(** C9: three records of utterance "u1" with [percent_duration] 10, 20
    and 70 and no duration column: the ranks are 1, 2, 3, every zone is
    start, [dur_s] is missing, and the row of the overall table has a mean
    of 33.33 and a sample standard deviation of 32.14 to the two decimals
    given. *)
Theorem u1_scenario :
  prepare_full_dataframe (H:=Sample.runtime) Demo.u1_disk = Ok Demo.u1_assembled /\
  (fun r => pd.get r "dur_s") <$> pd.rows Demo.u1_assembled = [np.nan; np.nan; np.nan] /\
  (exists dz : pd.DataFrame,
     assign_zones Demo.u1_assembled = Ok dz /\
     (fun r => pd.get r "v_index") <$> pd.rows dz = [Int 1; Int 2; Int 3] /\
     (fun r => pd.get r "zone") <$> pd.rows dz =
       [Str "начало"; Str "начало"; Str "начало"]) /\
  (exists (t : pd.DataFrame) (m s : float),
     compute_overall_table Demo.u1_assembled = Ok t /\
     (fun r => [pd.get r "Эмоция"; pd.get r "Вариант";
                pd.get r "Средний_%_длительности"; pd.get r "SD_%"]) <$> pd.rows t =
       [[Str "нейтральная"; Str "русский вариант"; Flt m; Flt s]] /\
     (33.33 <=? m)%float && (m <? 33.34)%float = true /\
     (32.14 <=? s)%float && (s <? 32.15)%float = true).
Proof.
  split; [vm_compute; reflexivity|]. split; [vm_compute; reflexivity|]. split.
  - eexists. split; [vm_compute; reflexivity|]. split; vm_compute; reflexivity.
  - exists Demo.u1_overall, 33.333333333333336%float, 32.145502536643185%float.
    repeat split; vm_compute; reflexivity.
Qed.

(** C10: the records of the assembled dataset are the concatenated
    records whose transcription, lower-cased, is not the text "consonant",
    in order and with their measurements unchanged.  A missing
    transcription is not that text, so a record with a missing
    transcription is retained. *)
Theorem missing_transcription_is_kept `{PyStr} (read_excel : string -> pd.DataFrame)
    (df : pd.DataFrame) :
  prepare_full_dataframe read_excel = Ok df ->
  Forall2 same_measurement
          (filter (fun r => ~ is_consonant r) (pd.rows (concatenated read_excel)))
          (pd.rows df) /\
  forall r : Row,
    r ∈ pd.rows (concatenated read_excel) ->
    np.isnan (pd.get r "transcription_phonemes") = true ->
    ~ is_consonant r /\
    exists r' : Row, r' ∈ pd.rows df /\ same_measurement r r'.
Proof.
  intros Hp. pose proof (assembled_rows read_excel df Hp) as Hf.
  split; [exact Hf|]. intros r Hr Hn.
  assert (Hc : ~ is_consonant r).
  { unfold is_consonant. destruct (pd.get r "transcription_phonemes"); discriminate. }
  split; [exact Hc|].
  assert (Hin : r ∈ filter (fun r => ~ is_consonant r)
                      (pd.rows (concatenated read_excel)))
    by (apply list_elem_of_filter; auto).
  apply list_elem_of_lookup in Hin as [i Hi].
  destruct (Forall2_lookup_l _ _ _ _ _ Hf Hi) as (r' & Hi' & Hs).
  exists r'. split; [|exact Hs]. by apply list_elem_of_lookup_2 in Hi'.
Qed.

Lemma missing_transcription_is_kept_witness :
  prepare_full_dataframe (H:=Sample.runtime) Demo.timed_disk = Ok Demo.timed_assembled /\
  Forall2 same_measurement
    (filter (fun r => ~ is_consonant (H:=Sample.runtime) r)
            (pd.rows (concatenated (H:=Sample.runtime) Demo.timed_disk)))
    (pd.rows Demo.timed_assembled).
Proof.
  assert (H1 : prepare_full_dataframe (H:=Sample.runtime) Demo.timed_disk
               = Ok Demo.timed_assembled) by (vm_compute; reflexivity).
  split; [exact H1|].
  exact (proj1 (missing_transcription_is_kept (H:=Sample.runtime) _ _ H1)).
Defined.

(** * Further properties of the program *)

(** ** The loader *)

(** X1: the loader adds a [variant] column, keeps the number of rows of
    the sheet it reads, and writes its label into the [variant] cell of
    every row. *)
Theorem load_variant_stamp `{PyStr} (read_excel : string -> pd.DataFrame)
    (path label : string) :
  let df := load_variant read_excel path label in
  "variant" ∈ pd.columns df /\
  length (pd.rows df) = length (pd.rows (read_excel path)) /\
  Forall (fun r => pd.get r "variant" = Str label) (pd.rows df).
Proof.
  cbn zeta. split_and!.
  - apply load_variant_has_variant.
  - apply load_variant_length.
  - apply load_variant_rows_variant.
Qed.

(** X2: with [N] the normalised column names of the sheet (stripped,
    lower-cased, spaces replaced by underscores), the loaded frame has a
    canonical column exactly when [N] has the canonical name or its alias,
    and it still has an alias column exactly when [N] has both the alias
    and the canonical name: an alias is renamed only when the canonical
    name is absent. *)
Theorem load_variant_aliases `{PyStr} (read_excel : string -> pd.DataFrame)
    (path label : string) :
  let N := normalise <$> pd.columns (read_excel path) in
  let C := pd.columns (load_variant read_excel path label) in
  ("percent_duration" ∈ C <-> "percent_duration" ∈ N \/ "persent_duration" ∈ N) /\
  ("total_duration" ∈ C <-> "total_duration" ∈ N \/ "totaldur" ∈ N) /\
  ("transcription_phonemes" ∈ C <->
     "transcription_phonemes" ∈ N \/ "transcription" ∈ N) /\
  ("file_name" ∈ C <-> "file_name" ∈ N \/ "filename" ∈ N) /\
  ("persent_duration" ∈ C <-> "persent_duration" ∈ N /\ "percent_duration" ∈ N) /\
  ("totaldur" ∈ C <-> "totaldur" ∈ N /\ "total_duration" ∈ N) /\
  ("transcription" ∈ C <-> "transcription" ∈ N /\ "transcription_phonemes" ∈ N) /\
  ("filename" ∈ C <-> "filename" ∈ N /\ "file_name" ∈ N).
Proof.
  cbn zeta. rewrite load_variant_steps. cbn zeta.
  change (normalise <$> pd.columns (read_excel path))
    with (pd.columns (pd.rename normalise (read_excel path))).
  set (d0 := pd.rename normalise (read_excel path)).
  split_and!; rewrite setitem_columns.
  - rewrite !alias_rule_other by discriminate. rewrite alias_rule_new by discriminate.
    intuition discriminate.
  - rewrite !alias_rule_other by discriminate. rewrite alias_rule_new by discriminate.
    rewrite !alias_rule_other by discriminate. intuition discriminate.
  - rewrite !alias_rule_other by discriminate. rewrite alias_rule_new by discriminate.
    rewrite !alias_rule_other by discriminate. intuition discriminate.
  - rewrite alias_rule_new by discriminate.
    rewrite !alias_rule_other by discriminate. intuition discriminate.
  - rewrite !alias_rule_other by discriminate. rewrite alias_rule_old by discriminate.
    intuition discriminate.
  - rewrite !alias_rule_other by discriminate. rewrite alias_rule_old by discriminate.
    rewrite !alias_rule_other by discriminate. intuition discriminate.
  - rewrite !alias_rule_other by discriminate. rewrite alias_rule_old by discriminate.
    rewrite !alias_rule_other by discriminate. intuition discriminate.
  - rewrite alias_rule_old by discriminate.
    rewrite !alias_rule_other by discriminate. intuition discriminate.
Qed.

(** X3: for each of the four alias rules, when the normalised sheet has
    the canonical column or its alias, the canonical column of the loaded
    frame holds, row by row, the cells of the canonical column of the
    normalised sheet when there is one, and the cells of the alias
    otherwise: the loader renames, it never changes a cell and never
    prefers the alias to the canonical column. *)
Theorem load_variant_alias_cells `{PyStr} (read_excel : string -> pd.DataFrame)
    (path label : string) (old new : string) :
  let d0 := pd.rename normalise (read_excel path) in
  (old, new) ∈ ALIASES ->
  new ∈ pd.columns d0 \/ old ∈ pd.columns d0 ->
  Forall2 (fun r0 r =>
             pd.get r new =
             pd.get r0 (if bool_decide (new ∈ pd.columns d0) then new else old))
          (pd.rows d0) (pd.rows (load_variant read_excel path label)).
Proof.
  cbn zeta. intros Hp Hor. unfold ALIASES in Hp. rewrite load_variant_steps. cbn zeta.
  set (d0 := pd.rename normalise (read_excel path)) in *.
  set (d1 := alias_rule "persent_duration" "percent_duration" d0).
  set (d2 := alias_rule "totaldur" "total_duration" d1).
  set (d3 := alias_rule "transcription" "transcription_phonemes" d2).
  set (d4 := alias_rule "filename" "file_name" d3).
  enough (Hc : carries (if bool_decide (new ∈ pd.columns d0) then new else old) new
                       d0 (pd.setitem "variant" (pd.broadcast d4 (Str label)) d4))
    by apply Hc.
  repeat (apply elem_of_cons in Hp as [[= -> ->]|Hp]); [| | | |by apply elem_of_nil in Hp].
  - (* percent_duration: the first rule *)
    pose proof (carries_rule "persent_duration" "percent_duration" d0
                  ltac:(discriminate) Hor) as C1. fold d1 in C1.
    assert (C2 : carries "percent_duration" "percent_duration" d1 d2)
      by (apply carries_other; try discriminate; apply C1).
    assert (C3 : carries "percent_duration" "percent_duration" d2 d3)
      by (apply carries_other; try discriminate; apply C2).
    assert (C4 : carries "percent_duration" "percent_duration" d3 d4)
      by (apply carries_other; try discriminate; apply C3).
    eapply carries_trans; [|apply carries_setitem; [discriminate | apply C4]].
    eauto using carries_trans.
  - (* total_duration: the second rule *)
    assert (Hor1 : "total_duration" ∈ pd.columns d1 \/ "totaldur" ∈ pd.columns d1).
    { unfold d1. rewrite !alias_rule_other by discriminate. exact Hor. }
    assert (Hsame : bool_decide ("total_duration" ∈ pd.columns d1)
                    = bool_decide ("total_duration" ∈ pd.columns d0)).
    { apply bool_decide_ext. unfold d1. by rewrite alias_rule_other by discriminate. }
    pose proof (carries_rule "totaldur" "total_duration" d1
                  ltac:(discriminate) Hor1) as C2.
    fold d2 in C2. rewrite Hsame in C2.
    assert (C1 : carries (if bool_decide ("total_duration" ∈ pd.columns d0)
                          then "total_duration" else "totaldur")
                         (if bool_decide ("total_duration" ∈ pd.columns d0)
                          then "total_duration" else "totaldur") d0 d1).
    { case_bool_decide as Hn.
      - apply carries_other; try discriminate; exact Hn.
      - apply carries_other; try discriminate; tauto. }
    assert (C3 : carries "total_duration" "total_duration" d2 d3)
      by (apply carries_other; try discriminate; apply C2).
    assert (C4 : carries "total_duration" "total_duration" d3 d4)
      by (apply carries_other; try discriminate; apply C3).
    eapply carries_trans; [|apply carries_setitem; [discriminate | apply C4]].
    eauto using carries_trans.
  - (* transcription_phonemes: the third rule *)
    assert (Hm : forall c, c <> "persent_duration" -> c <> "percent_duration" ->
                           c <> "totaldur" -> c <> "total_duration" ->
                           (c ∈ pd.columns d2 <-> c ∈ pd.columns d0)).
    { intros c ? ? ? ?. unfold d2, d1. by rewrite !alias_rule_other. }
    assert (Hor2 : "transcription_phonemes" ∈ pd.columns d2 \/
                   "transcription" ∈ pd.columns d2)
      by (rewrite !Hm by discriminate; exact Hor).
    assert (Hsame : bool_decide ("transcription_phonemes" ∈ pd.columns d2)
                    = bool_decide ("transcription_phonemes" ∈ pd.columns d0))
      by (apply bool_decide_ext, Hm; discriminate).
    pose proof (carries_rule "transcription" "transcription_phonemes" d2
                  ltac:(discriminate) Hor2) as C3.
    fold d3 in C3. rewrite Hsame in C3.
    assert (C12 : carries (if bool_decide ("transcription_phonemes" ∈ pd.columns d0)
                           then "transcription_phonemes" else "transcription")
                          (if bool_decide ("transcription_phonemes" ∈ pd.columns d0)
                           then "transcription_phonemes" else "transcription") d0 d2).
    { case_bool_decide as Hn.
      - apply (carries_trans _ "transcription_phonemes" _ _ d1);
          apply carries_other; try discriminate; [exact Hn|].
        unfold d1. by rewrite alias_rule_other by discriminate.
      - assert (Ho : "transcription" ∈ pd.columns d0) by tauto.
        apply (carries_trans _ "transcription" _ _ d1);
          apply carries_other; try discriminate; [exact Ho|].
        unfold d1. by rewrite alias_rule_other by discriminate. }
    assert (C4 : carries "transcription_phonemes" "transcription_phonemes" d3 d4)
      by (apply carries_other; try discriminate; apply C3).
    eapply carries_trans; [|apply carries_setitem; [discriminate | apply C4]].
    eauto using carries_trans.
  - (* file_name: the fourth rule *)
    assert (Hm : forall c, c <> "persent_duration" -> c <> "percent_duration" ->
                           c <> "totaldur" -> c <> "total_duration" ->
                           c <> "transcription" -> c <> "transcription_phonemes" ->
                           (c ∈ pd.columns d3 <-> c ∈ pd.columns d0)).
    { intros c ? ? ? ? ? ?. unfold d3, d2, d1. by rewrite !alias_rule_other. }
    assert (Hor3 : "file_name" ∈ pd.columns d3 \/ "filename" ∈ pd.columns d3)
      by (rewrite !Hm by discriminate; exact Hor).
    assert (Hsame : bool_decide ("file_name" ∈ pd.columns d3)
                    = bool_decide ("file_name" ∈ pd.columns d0))
      by (apply bool_decide_ext, Hm; discriminate).
    pose proof (carries_rule "filename" "file_name" d3
                  ltac:(discriminate) Hor3) as C4.
    fold d4 in C4. rewrite Hsame in C4.
    assert (C123 : carries (if bool_decide ("file_name" ∈ pd.columns d0)
                            then "file_name" else "filename")
                           (if bool_decide ("file_name" ∈ pd.columns d0)
                            then "file_name" else "filename") d0 d3).
    { assert (Hk : forall k, k = "file_name" \/ k = "filename" ->
                             k ∈ pd.columns d0 -> carries k k d0 d3).
      { intros k Hkk Hk.
        assert (Hd : k <> "persent_duration" /\ k <> "percent_duration" /\
                     k <> "totaldur" /\ k <> "total_duration" /\
                     k <> "transcription" /\ k <> "transcription_phonemes")
          by (destruct Hkk as [-> | ->]; repeat split; discriminate).
        destruct Hd as (? & ? & ? & ? & ? & ?).
        apply (carries_trans _ k _ _ d2); [apply (carries_trans _ k _ _ d1)|];
          apply carries_other; try discriminate; try done.
        - unfold d1. by rewrite alias_rule_other.
        - unfold d2, d1. by rewrite !alias_rule_other. }
      case_bool_decide as Hn; apply Hk; tauto. }
    eapply carries_trans; [|apply carries_setitem; [discriminate | apply C4]].
    eauto using carries_trans.
Qed.

Lemma load_variant_alias_cells_witness :
  ("persent_duration", "percent_duration") ∈ ALIASES /\
  ("percent_duration" ∈ pd.columns Tables.timed_normal \/
   "persent_duration" ∈ pd.columns Tables.timed_normal) /\
  Forall2 (fun r0 r =>
             pd.get r "percent_duration" =
             pd.get r0 (if bool_decide ("percent_duration" ∈ pd.columns Tables.timed_normal)
                        then "percent_duration" else "persent_duration"))
          (pd.rows Tables.timed_normal)
          (pd.rows (load_variant (H:=Sample.runtime) Demo.timed_disk BIL_FILE BIL_LABEL)).
Proof.
  assert (H1 : ("persent_duration", "percent_duration") ∈ ALIASES)
    by (apply (bool_decide_unpack _); vm_compute; exact I).
  assert (H2 : "percent_duration" ∈ pd.columns Tables.timed_normal \/
               "persent_duration" ∈ pd.columns Tables.timed_normal)
    by (right; apply (bool_decide_unpack _); vm_compute; exact I).
  split; [exact H1|]. split; [exact H2|].
  exact (load_variant_alias_cells (H:=Sample.runtime) Demo.timed_disk
           BIL_FILE BIL_LABEL _ _ H1 H2).
Defined.

(** ** The dataset assembler *)

(** X4: the assembler fails in a fixed order.  Without
    [transcription_phonemes] it raises the error for that column, whatever
    else is missing.  With the column, the [.str] accessor of pandas raises
    an [AttributeError] when the column has records and none of them holds
    text, before any other column is looked at.  With text in the column,
    and with neither [emotion] nor [file_name], the assembler raises the
    error for the emotion; with one of those, and without
    [percent_duration], the error for the percent duration.  Any failure
    that is not one of the three column errors is that [AttributeError], or
    a [TypeError] of the arithmetic on a [total_duration] column. *)
Theorem prepare_error_precedence `{PyStr} (read_excel : string -> pd.DataFrame) :
  let C := pd.columns (concatenated read_excel) in
  let T := pd.col (concatenated read_excel) "transcription_phonemes" in
  ("transcription_phonemes" ∉ C ->
   prepare_full_dataframe read_excel = Raise (ValueError MSG_TRANSCRIPTION)) /\
  ("transcription_phonemes" ∈ C -> T <> [] -> pd.has_text T = false ->
   prepare_full_dataframe read_excel = Raise AttributeError) /\
  ("transcription_phonemes" ∈ C -> pd.has_text T = true ->
   "emotion" ∉ C -> "file_name" ∉ C ->
   prepare_full_dataframe read_excel = Raise (ValueError MSG_EMOTION)) /\
  ("transcription_phonemes" ∈ C -> pd.has_text T = true ->
   "emotion" ∈ C \/ "file_name" ∈ C -> "percent_duration" ∉ C ->
   prepare_full_dataframe read_excel = Raise (ValueError MSG_PERCENT)) /\
  (forall e : exn,
     prepare_full_dataframe read_excel = Raise e -> schema_error e = false ->
     (e = AttributeError /\ "transcription_phonemes" ∈ C /\ pd.has_text T = false) \/
     (e = TypeError /\ "total_duration" ∈ C)).
Proof.
  cbn zeta. rewrite prepare_full_dataframe_eq. unfold pd.has.
  split_and!.
  - intros Ht. by rewrite (bool_decide_false _ Ht).
  - intros Ht Hne Htx. rewrite (bool_decide_true _ Ht). cbn [negb].
    destruct (pd.col (concatenated read_excel) "transcription_phonemes") as [|c T];
      [congruence|].
    cbn [pd.str_accessible]. by rewrite Htx.
  - intros Ht Htx He Hf. rewrite (has_text_accessible _ Htx).
    by rewrite (bool_decide_true _ Ht), (bool_decide_false _ He), (bool_decide_false _ Hf).
  - intros Ht Htx Hef Hp. rewrite (has_text_accessible _ Htx).
    rewrite (bool_decide_true _ Ht), (bool_decide_false _ Hp).
    cbn [negb]. destruct Hef as [He|Hf].
    + by rewrite (bool_decide_true _ He).
    + rewrite (bool_decide_true _ Hf). cbn [negb]. by rewrite andb_false_r.
  - intros e.
    destruct (pd.str_accessible
                (pd.col (concatenated read_excel) "transcription_phonemes")) eqn:Ha;
      repeat case_bool_decide; cbn [negb andb];
      try (intros [= <-] Hs; vm_compute in Hs; discriminate Hs);
      try (intros [= <-] _; left; split; [reflexivity|];
           split; [assumption | by apply str_accessible_text]);
      intros He _; right; apply with_dur_s_Raise in He as [-> Htot];
      (split; [reflexivity|]);
      rewrite has_enriched in Htot by discriminate;
      by apply bool_decide_eq_true in Htot.
Qed.

Lemma prepare_error_precedence_witness :
  "transcription_phonemes"
    ∈ pd.columns (concatenated (H:=Sample.runtime) Demo.unmeasured_disk) /\
  pd.has_text (pd.col (concatenated (H:=Sample.runtime) Demo.unmeasured_disk)
                      "transcription_phonemes") = true /\
  "file_name" ∈ pd.columns (concatenated (H:=Sample.runtime) Demo.unmeasured_disk) /\
  ("percent_duration"
     ∉ pd.columns (concatenated (H:=Sample.runtime) Demo.unmeasured_disk)) /\
  prepare_full_dataframe (H:=Sample.runtime) Demo.unmeasured_disk
  = Raise (ValueError MSG_PERCENT).
Proof.
  assert (H1 : "transcription_phonemes"
                 ∈ pd.columns (concatenated (H:=Sample.runtime) Demo.unmeasured_disk))
    by (apply (bool_decide_unpack _); vm_compute; exact I).
  assert (Htx : pd.has_text
                  (pd.col (concatenated (H:=Sample.runtime) Demo.unmeasured_disk)
                          "transcription_phonemes") = true)
    by (vm_compute; reflexivity).
  assert (H2 : "file_name"
                 ∈ pd.columns (concatenated (H:=Sample.runtime) Demo.unmeasured_disk))
    by (apply (bool_decide_unpack _); vm_compute; exact I).
  assert (H3 : "percent_duration"
                 ∉ pd.columns (concatenated (H:=Sample.runtime) Demo.unmeasured_disk))
    by (apply (bool_decide_unpack _); vm_compute; exact I).
  split; [exact H1|]. split; [exact Htx|]. split; [exact H2|]. split; [exact H3|].
  exact (proj1 (proj2 (proj2 (proj2 (prepare_error_precedence (H:=Sample.runtime)
                                       Demo.unmeasured_disk))))
           H1 Htx (or_intror H2) H3).
Defined.

(** X5: the assembled dataset lists the kept records source by source:
    first those of the Russian source, then those of the bilingual source,
    then those of the Kabardian source, each in the order of its sheet and
    with its measurements unchanged; its [variant] column is the label of
    the first source once per kept record of that source, then the label
    of the second, then the label of the third. *)
Theorem assembled_source_order `{PyStr} (read_excel : string -> pd.DataFrame)
    (df : pd.DataFrame) :
  prepare_full_dataframe read_excel = Ok df ->
  let rus := kept_rows read_excel RUS_FILE RUS_LABEL in
  let bil := kept_rows read_excel BIL_FILE BIL_LABEL in
  let kab := kept_rows read_excel KAB_FILE KAB_LABEL in
  Forall2 same_measurement (rus ++ bil ++ kab) (pd.rows df) /\
  (fun r => pd.get r "variant") <$> pd.rows df =
    replicate (length rus) (Str RUS_LABEL) ++
    replicate (length bil) (Str BIL_LABEL) ++
    replicate (length kab) (Str KAB_LABEL).
Proof.
  intros Hp rus bil kab. pose proof (assembled_rows read_excel df Hp) as Hf.
  rewrite concatenated_rows, !filter_app in Hf.
  fold (kept_rows read_excel RUS_FILE RUS_LABEL) in Hf.
  fold (kept_rows read_excel BIL_FILE BIL_LABEL) in Hf.
  fold (kept_rows read_excel KAB_FILE KAB_LABEL) in Hf.
  fold rus bil kab in Hf. split; [exact Hf|].
  rewrite (Forall2_fmap_keys (fun r => pd.get r "variant") _ (rus ++ bil ++ kab)).
  - rewrite !fmap_app. unfold rus, bil, kab. by rewrite !kept_rows_variant.
  - eapply Forall2_impl; [exact Hf|]. intros r r' Hs. unfold pd.get.
    rewrite (Hs "variant"); [reflexivity | discriminate | discriminate].
Qed.

Lemma assembled_source_order_witness :
  prepare_full_dataframe (H:=Sample.runtime) Demo.timed_disk = Ok Demo.timed_assembled /\
  (fun r => pd.get r "variant") <$> pd.rows Demo.timed_assembled =
    replicate (length (kept_rows (H:=Sample.runtime) Demo.timed_disk RUS_FILE RUS_LABEL))
              (Str RUS_LABEL) ++
    replicate (length (kept_rows (H:=Sample.runtime) Demo.timed_disk BIL_FILE BIL_LABEL))
              (Str BIL_LABEL) ++
    replicate (length (kept_rows (H:=Sample.runtime) Demo.timed_disk KAB_FILE KAB_LABEL))
              (Str KAB_LABEL).
Proof.
  assert (H1 : prepare_full_dataframe (H:=Sample.runtime) Demo.timed_disk
               = Ok Demo.timed_assembled) by (vm_compute; reflexivity).
  split; [exact H1|].
  exact (proj2 (assembled_source_order (H:=Sample.runtime) _ _ H1)).
Defined.

(** X6: a dataset the assembler returns always has the columns [variant],
    [transcription_phonemes], [emotion], [percent_duration] and [dur_s],
    and its columns are those of the concatenated sources together with
    [emotion] and [dur_s]: the assembler adds at most these two columns and
    drops none. *)
Theorem assembled_columns `{PyStr} (read_excel : string -> pd.DataFrame)
    (df : pd.DataFrame) :
  prepare_full_dataframe read_excel = Ok df ->
  Forall (fun c => c ∈ pd.columns df)
         ["variant"; "transcription_phonemes"; "emotion"; "percent_duration"; "dur_s"] /\
  forall c : string,
    c ∈ pd.columns df <->
    c = "dur_s" \/ c = "emotion" \/ c ∈ pd.columns (concatenated read_excel).
Proof.
  intros (Ht & _ & He & Hp & Hd)%prepare_full_dataframe_Ok.
  apply with_dur_s_Ok in Hd as [Hc _].
  assert (Hall : forall c, c ∈ pd.columns df <->
            c = "dur_s" \/ c = "emotion" \/ c ∈ pd.columns (concatenated read_excel)).
  { intros c. rewrite Hc. unfold enriched. rewrite with_emotion_columns. reflexivity. }
  split; [|exact Hall].
  repeat apply Forall_cons_2; try apply Forall_nil_2; apply Hall; auto.
  do 2 right. apply concatenated_variant.
Qed.

Lemma assembled_columns_witness :
  prepare_full_dataframe (H:=Sample.runtime) Demo.timed_disk = Ok Demo.timed_assembled /\
  Forall (fun c => c ∈ pd.columns Demo.timed_assembled)
         ["variant"; "transcription_phonemes"; "emotion"; "percent_duration"; "dur_s"].
Proof.
  assert (H1 : prepare_full_dataframe (H:=Sample.runtime) Demo.timed_disk
               = Ok Demo.timed_assembled) by (vm_compute; reflexivity).
  split; [exact H1|].
  exact (proj1 (assembled_columns (H:=Sample.runtime) _ _ H1)).
Defined.

(** X7: when no source has an [emotion] column, the [emotion] of every
    record of the assembled dataset is the category the emotion classifier
    gives to its [file_name], one of the four categories; when a source has
    an [emotion] column, the classifier is not used and every kept record
    keeps the [emotion] cell it had, also a missing one. *)
Theorem assembled_emotion `{PyStr} (read_excel : string -> pd.DataFrame)
    (df : pd.DataFrame) :
  prepare_full_dataframe read_excel = Ok df ->
  ("emotion" ∉ pd.columns (concatenated read_excel) ->
   Forall (fun r => pd.get r "emotion" = Str (detect_emotion (pd.get r "file_name")) /\
                    detect_emotion (pd.get r "file_name") ∈ EMOTIONS)
          (pd.rows df)) /\
  ("emotion" ∈ pd.columns (concatenated read_excel) ->
   Forall2 (fun r r' => pd.get r' "emotion" = pd.get r "emotion")
           (filter (fun r => ~ is_consonant r) (pd.rows (concatenated read_excel)))
           (pd.rows df)).
Proof.
  intros (_ & _ & _ & _ & Hd)%prepare_full_dataframe_Ok.
  apply with_dur_s_Ok in Hd as [_ Hd]. split; intros He.
  - rewrite (enriched_derived read_excel He) in Hd.
    eapply Forall2_Forall_r; [exact Hd|]. apply Forall_fmap, Forall_forall.
    intros r _ r' [Hr' _]. cbn [compose] in Hr'.
    split; [|apply detect_emotion_range].
    assert (Hg : forall c, c <> "dur_s" ->
               pd.get r' c =
               pd.get (<["emotion" := Str (detect_emotion (pd.get r "file_name"))]> r) c).
    { intros c Hc. rewrite Hr'. apply get_insert_ne. congruence. }
    rewrite (Hg "emotion"), (Hg "file_name") by discriminate.
    rewrite get_insert_eq. by rewrite get_insert_ne by discriminate.
  - rewrite (enriched_present read_excel He) in Hd.
    eapply Forall2_impl; [exact Hd|]. intros r r' [Hr' _].
    rewrite Hr'. apply get_insert_ne. discriminate.
Qed.

Lemma assembled_emotion_witness :
  prepare_full_dataframe (H:=Sample.runtime) Demo.timed_disk = Ok Demo.timed_assembled /\
  ("emotion" ∉ pd.columns (concatenated (H:=Sample.runtime) Demo.timed_disk)) /\
  Forall (fun r =>
            pd.get r "emotion"
            = Str (detect_emotion (H:=Sample.runtime) (pd.get r "file_name")) /\
            detect_emotion (H:=Sample.runtime) (pd.get r "file_name") ∈ EMOTIONS)
         (pd.rows Demo.timed_assembled).
Proof.
  assert (H1 : prepare_full_dataframe (H:=Sample.runtime) Demo.timed_disk
               = Ok Demo.timed_assembled) by (vm_compute; reflexivity).
  assert (H2 : "emotion" ∉ pd.columns (concatenated (H:=Sample.runtime) Demo.timed_disk))
    by (apply (bool_decide_unpack _); vm_compute; exact I).
  split; [exact H1|]. split; [exact H2|].
  exact (proj1 (assembled_emotion (H:=Sample.runtime) _ _ H1) H2).
Defined.

(** X15: a column checked by the assembler is a column of the
    concatenated sources as soon as one of the three sources offers it,
    under its canonical name or its alias, after normalisation; a column
    without alias, as soon as one source has it.  One source with the
    column is enough: the check is on the concatenation, not on every
    source. *)
Theorem columns_from_sources `{PyStr} (read_excel : string -> pd.DataFrame) :
  let C := pd.columns (concatenated read_excel) in
  ("transcription_phonemes" ∈ C <->
     offered read_excel "transcription_phonemes" \/ offered read_excel "transcription") /\
  ("percent_duration" ∈ C <->
     offered read_excel "percent_duration" \/ offered read_excel "persent_duration") /\
  ("file_name" ∈ C <->
     offered read_excel "file_name" \/ offered read_excel "filename") /\
  ("total_duration" ∈ C <->
     offered read_excel "total_duration" \/ offered read_excel "totaldur") /\
  ("emotion" ∈ C <-> offered read_excel "emotion") /\
  ("duration" ∈ C <-> offered read_excel "duration").
Proof.
  cbn zeta. rewrite !concatenated_columns, !offered_files.
  rewrite !(load_variant_canonical read_excel _ _ "transcription" "transcription_phonemes")
    by (do 2 right; by left).
  rewrite !(load_variant_canonical read_excel _ _ "persent_duration" "percent_duration")
    by (by left).
  rewrite !(load_variant_canonical read_excel _ _ "filename" "file_name")
    by (do 3 right; by left).
  rewrite !(load_variant_canonical read_excel _ _ "totaldur" "total_duration")
    by (right; by left).
  rewrite !(load_variant_plain read_excel _ _ "emotion") by (by left).
  rewrite !(load_variant_plain read_excel _ _ "duration") by (right; by left).
  split_and!; tauto.
Qed.

(** ** The zone assigner *)

(** X8: the zone assigner fails or returns by the columns and the size of
    its input.  Without [file_name] it raises its own error; with it,
    sorting raises a [KeyError] for [variant], then for [emotion], when
    that column is missing; with the three columns and no record,
    [np.vectorize] raises a [ValueError]; with the three columns and at
    least one record it returns a frame with as many records and with the
    columns of its input together with [v_index] and [zone]. *)
Theorem assign_zones_outcomes (df : pd.DataFrame) :
  let C := pd.columns df in
  ("file_name" ∉ C -> assign_zones df = Raise (ValueError MSG_FILE_NAME)) /\
  ("file_name" ∈ C -> "variant" ∉ C -> assign_zones df = Raise (KeyError "variant")) /\
  ("file_name" ∈ C -> "variant" ∈ C -> "emotion" ∉ C ->
   assign_zones df = Raise (KeyError "emotion")) /\
  ("file_name" ∈ C -> "variant" ∈ C -> "emotion" ∈ C -> pd.rows df = [] ->
   assign_zones df = Raise (ValueError MSG_VECTORIZE)) /\
  ("file_name" ∈ C -> "variant" ∈ C -> "emotion" ∈ C -> pd.rows df <> [] ->
   exists df' : pd.DataFrame,
     assign_zones df = Ok df' /\
     length (pd.rows df') = length (pd.rows df) /\
     forall c : string, c ∈ pd.columns df' <-> c ∈ C \/ c = "v_index" \/ c = "zone").
Proof.
  cbn zeta. split_and!.
  - intros Hf. unfold assign_zones, pd.has. by rewrite (bool_decide_false _ Hf).
  - intros Hf Hv.
    unfold assign_zones, pd.sort_values, pd.missing_column, utterance, pd.has.
    cbn [List.find]. by rewrite (bool_decide_true _ Hf), (bool_decide_false _ Hv).
  - intros Hf Hv He.
    unfold assign_zones, pd.sort_values, pd.missing_column, utterance, pd.has.
    cbn [List.find].
    by rewrite (bool_decide_true _ Hf), (bool_decide_true _ Hv), (bool_decide_false _ He).
  - intros Hf Hv He Hnil.
    unfold assign_zones, pd.sort_values, pd.missing_column, utterance, pd.has.
    cbn [List.find].
    rewrite (bool_decide_true _ Hf), (bool_decide_true _ Hv), (bool_decide_true _ He).
    cbn [negb mbind result_bind].
    unfold pd.transform_max, pd.setitem, pd.cumcount. cbn [pd.rows].
    by rewrite Hnil.
  - intros Hf Hv He Hne.
    exists {| pd.columns := zoned_columns (pd.columns df);
              pd.rows := zoned_rows (pd.rows df) |}.
    split; [by apply assign_zones_Ok|]. cbn [pd.rows pd.columns].
    split; [apply zoned_rows_length | apply zoned_columns_elem].
Qed.

Lemma assign_zones_outcomes_witness :
  "file_name" ∈ pd.columns Demo.interleaved /\
  "variant" ∈ pd.columns Demo.interleaved /\
  "emotion" ∈ pd.columns Demo.interleaved /\
  pd.rows Demo.interleaved <> [] /\
  exists df' : pd.DataFrame,
    assign_zones Demo.interleaved = Ok df' /\
    length (pd.rows df') = length (pd.rows Demo.interleaved) /\
    forall c : string,
      c ∈ pd.columns df' <->
      c ∈ pd.columns Demo.interleaved \/ c = "v_index" \/ c = "zone".
Proof.
  assert (H1 : "file_name" ∈ pd.columns Demo.interleaved)
    by (apply (bool_decide_unpack _); vm_compute; exact I).
  assert (H2 : "variant" ∈ pd.columns Demo.interleaved)
    by (apply (bool_decide_unpack _); vm_compute; exact I).
  assert (H3 : "emotion" ∈ pd.columns Demo.interleaved)
    by (apply (bool_decide_unpack _); vm_compute; exact I).
  assert (H4 : pd.rows Demo.interleaved <> [])
    by (intros E; apply (f_equal length) in E; vm_compute in E; discriminate E).
  split; [exact H1|]. split; [exact H2|]. split; [exact H3|]. split; [exact H4|].
  exact (proj2 (proj2 (proj2 (proj2 (assign_zones_outcomes Demo.interleaved))))
           H1 H2 H3 H4).
Defined.

(** X9: the zone assigner neither drops, nor adds, nor changes a record:
    without the two columns it writes, the records of its result are the
    records of its input, in another order. *)
Theorem assign_zones_keeps_records (df df' : pd.DataFrame) :
  assign_zones df = Ok df' ->
  measurements <$> pd.rows df' ≡ₚ measurements <$> pd.rows df.
Proof.
  intros Hz. apply assign_zones_Ok in Hz as (_ & _ & _ & _ & ->). cbn [pd.rows].
  unfold zoned_rows. rewrite <- list_fmap_compose.
  set (ls := pd.stable_sort (pd.sort_key utterance) (pd.rows df)).
  set (m := pd.group_maxima utterance "v_index" (with_v_index ls)).
  assert (E : measurements ∘ (fun r => <["zone" := zone_of m r]> r)
                <$> with_v_index ls = measurements <$> ls).
  { unfold with_v_index. rewrite (fmap_zip_with_same _ _ ls).
    - apply list_fmap_ext. intros _ r _. cbn [compose]. apply measurements_zone.
    - intros r v. cbn [compose]. by rewrite !measurements_zone, measurements_v_index.
    - unfold pd.add_scalar. by rewrite length_fmap, cumcount_go_length. }
  rewrite E. unfold ls. by rewrite stable_sort_perm.
Qed.

Lemma assign_zones_keeps_records_witness :
  assign_zones Demo.interleaved = Ok Demo.interleaved_zoned /\
  measurements <$> pd.rows Demo.interleaved_zoned
  ≡ₚ measurements <$> pd.rows Demo.interleaved.
Proof.
  assert (H1 : assign_zones Demo.interleaved = Ok Demo.interleaved_zoned)
    by (vm_compute; reflexivity).
  split; [exact H1|].
  exact (assign_zones_keeps_records _ _ H1).
Defined.

(** X10: in the result of the zone assigner the zones of an utterance of
    [n] records, read in order, are at most three starts, then [n - 6]
    middles, then at most three ends: [min n 3] starts and [min (n - 3) 3]
    ends, so that an utterance of up to three records is all start, and one
    of four to six records has no middle. *)
Theorem zone_blocks_of_utterance (df df' : pd.DataFrame) (k : list string) :
  assign_zones df = Ok df' ->
  let n := length (pd.group_rows utterance k (pd.rows df')) in
  (fun r => pd.get r "zone") <$> pd.group_rows utterance k (pd.rows df') =
  Str <$> (replicate (n `min` 3) "начало" ++
           replicate (n - 6) "середина" ++
           replicate ((n - 3) `min` 3) "конец").
Proof.
  intros Hz. apply assign_zones_Ok in Hz as (_ & _ & _ & _ & ->). cbn [pd.rows].
  cbn zeta. rewrite zoned_rows_group, length_imap, fmap_imap.
  set (g := pd.group_rows utterance k (pd.rows df)).
  rewrite <- zone_blocks, <- list_fmap_compose, <- imap_seq_0.
  apply imap_ext. intros j r _. cbn [compose]. apply get_insert_eq.
Qed.

Lemma zone_blocks_of_utterance_witness :
  assign_zones Demo.interleaved = Ok Demo.interleaved_zoned /\
  (fun r => pd.get r "zone")
    <$> pd.group_rows utterance Demo.KEY_A (pd.rows Demo.interleaved_zoned) =
  Str <$> (replicate
             (length (pd.group_rows utterance Demo.KEY_A
                        (pd.rows Demo.interleaved_zoned)) `min` 3) "начало" ++
           replicate
             (length (pd.group_rows utterance Demo.KEY_A
                        (pd.rows Demo.interleaved_zoned)) - 6) "середина" ++
           replicate
             ((length (pd.group_rows utterance Demo.KEY_A
                         (pd.rows Demo.interleaved_zoned)) - 3) `min` 3) "конец").
Proof.
  assert (H1 : assign_zones Demo.interleaved = Ok Demo.interleaved_zoned)
    by (vm_compute; reflexivity).
  split; [exact H1|].
  exact (zone_blocks_of_utterance _ _ Demo.KEY_A H1).
Defined.

(** ** The tables *)

(** X14: the overall table needs the columns [emotion], [variant] and
    [percent_duration]: without one of them it raises a [KeyError].  With
    the three columns, and no text in a [percent_duration] or [dur_s] cell,
    it returns.  It never fails in another way than by a [KeyError] or a
    [TypeError]. *)
Theorem overall_table_outcomes (df : pd.DataFrame) :
  let C := pd.columns df in
  ("emotion" ∉ C \/ "variant" ∉ C \/ "percent_duration" ∉ C ->
   exists k : string, compute_overall_table df = Raise (KeyError k)) /\
  ("emotion" ∈ C -> "variant" ∈ C -> "percent_duration" ∈ C ->
   Forall (fun r => pd.text_of (pd.get r "percent_duration") = None /\
                    pd.text_of (pd.get r "dur_s") = None) (pd.rows df) ->
   exists t : pd.DataFrame, compute_overall_table df = Ok t) /\
  (forall e : exn,
     compute_overall_table df = Raise e ->
     (exists k : string, e = KeyError k) \/ e = TypeError).
Proof.
  cbn zeta. unfold compute_overall_table, pd.groupby_agg, pd.set_columns.
  assert (Hspec : (if pd.has df "dur_s"
                   then [("percent_duration", [pd.Mean; pd.Std])] ++
                        [("dur_s", [pd.Mean; pd.Std])]
                   else [("percent_duration", [pd.Mean; pd.Std])]).*1 =
                  if pd.has df "dur_s" then ["percent_duration"; "dur_s"]
                  else ["percent_duration"])
    by (by destruct (pd.has df "dur_s")).
  rewrite Hspec. clear Hspec.
  split_and!.
  - intros Hm. unfold pd.missing_column.
    destruct (List.find _ _) as [k|] eqn:Hf; [by exists k|]. exfalso.
    assert (Hall : forall c, c ∈ ["emotion"; "variant"] ++
                     (if pd.has df "dur_s" then ["percent_duration"; "dur_s"]
                      else ["percent_duration"]) -> c ∈ pd.columns df).
    { intros c Hc. apply list_elem_of_In in Hc.
      pose proof (List.find_none _ _ Hf c Hc) as Hn. cbn beta in Hn.
      apply negb_false_iff, bool_decide_eq_true in Hn. exact Hn. }
    destruct Hm as [Hm|[Hm|Hm]]; apply Hm, Hall.
    + by left.
    + right. by left.
    + do 2 right. destruct (pd.has df "dur_s"); by left.
  - intros He Hv Hp Hnum. unfold pd.missing_column.
    destruct (List.find _ _) as [k|] eqn:Hf.
    { exfalso. apply List.find_some in Hf as [Hin Hk].
      apply negb_true_iff, bool_decide_eq_false in Hk. apply Hk.
      apply list_elem_of_In in Hin.
      destruct (pd.has df "dur_s") eqn:Hd;
        repeat (apply elem_of_cons in Hin as [->|Hin]; [try assumption|]);
        try (by apply elem_of_nil in Hin).
      by apply bool_decide_eq_true in Hd. }
    destruct (mapR_total
                (fun k =>
                   stats ← mapR (fun cf =>
                                   pd.aggregate cf.2
                                     ((fun r => pd.get r cf.1)
                                        <$> pd.group_rows ["emotion"; "variant"] k
                                              (pd.rows df)))
                                (pd.agg_columns
                                   (if pd.has df "dur_s"
                                    then [("percent_duration", [pd.Mean; pd.Std])] ++
                                         [("dur_s", [pd.Mean; pd.Std])]
                                    else [("percent_duration", [pd.Mean; pd.Std])]));
                   Ok ((Str <$> k) ++ stats))
                (pd.group_keys ["emotion"; "variant"] (pd.rows df))) as [b Hb].
    { intros k _.
      destruct (mapR_total
                  (fun cf =>
                     pd.aggregate cf.2
                       ((fun r => pd.get r cf.1)
                          <$> pd.group_rows ["emotion"; "variant"] k (pd.rows df)))
                  (pd.agg_columns
                     (if pd.has df "dur_s"
                      then [("percent_duration", [pd.Mean; pd.Std])] ++
                           [("dur_s", [pd.Mean; pd.Std])]
                      else [("percent_duration", [pd.Mean; pd.Std])]))) as [st Hst].
      - intros cf Hcf. apply aggregate_numeric, Forall_fmap, Forall_forall.
        intros r Hr. apply list_elem_of_filter in Hr as [_ Hr].
        pose proof (proj1 (Forall_forall _ _) Hnum r Hr) as [H1 H2].
        cbn [compose].
        destruct (pd.has df "dur_s");
          repeat (apply elem_of_cons in Hcf as [->|Hcf]; [assumption|]);
          by apply elem_of_nil in Hcf.
      - rewrite Hst. by eexists. }
    rewrite Hb. cbn [mbind result_bind pd.width].
    destruct (pd.has df "dur_s"); cbn; by eexists.
  - intros e. destruct (pd.missing_column df _) as [k|].
    + intros [= <-]. left. by exists k.
    + destruct (mapR _ _) as [b|e0] eqn:Hb; cbn [mbind result_bind].
      * cbn [pd.width]. destruct (pd.has df "dur_s"); cbn; discriminate.
      * intros [= <-]. right. apply mapR_Raise in Hb as (k & _ & Hk).
        destruct (mapR _ (pd.agg_columns _)) as [st|e1] eqn:Hst;
          cbn [mbind result_bind] in Hk; [discriminate|].
        injection Hk as <-. apply mapR_Raise in Hst as (cf & _ & Hcf).
        by apply aggregate_Raise in Hcf.
Qed.

Lemma overall_table_outcomes_witness :
  "emotion" ∈ pd.columns Demo.u1_assembled /\
  "variant" ∈ pd.columns Demo.u1_assembled /\
  "percent_duration" ∈ pd.columns Demo.u1_assembled /\
  Forall (fun r => pd.text_of (pd.get r "percent_duration") = None /\
                   pd.text_of (pd.get r "dur_s") = None)
         (pd.rows Demo.u1_assembled) /\
  exists t : pd.DataFrame, compute_overall_table Demo.u1_assembled = Ok t.
Proof.
  assert (H1 : "emotion" ∈ pd.columns Demo.u1_assembled)
    by (apply (bool_decide_unpack _); vm_compute; exact I).
  assert (H2 : "variant" ∈ pd.columns Demo.u1_assembled)
    by (apply (bool_decide_unpack _); vm_compute; exact I).
  assert (H3 : "percent_duration" ∈ pd.columns Demo.u1_assembled)
    by (apply (bool_decide_unpack _); vm_compute; exact I).
  assert (H4 : Forall (fun r => pd.text_of (pd.get r "percent_duration") = None /\
                                pd.text_of (pd.get r "dur_s") = None)
                      (pd.rows Demo.u1_assembled))
    by (apply (bool_decide_unpack _); vm_compute; exact I).
  split; [exact H1|]. split; [exact H2|]. split; [exact H3|]. split; [exact H4|].
  exact (proj1 (proj2 (overall_table_outcomes Demo.u1_assembled)) H1 H2 H3 H4).
Defined.



(** X12: every row of the zone table carries one of the three zone
    labels. *)
Theorem zone_table_zones (df t : pd.DataFrame) :
  compute_zone_table df = Ok t ->
  Forall (fun r => exists z, pd.get r "Зона" = Str z /\ z ∈ ZONES) (pd.rows t).
Proof.
  intros Ht. unfold compute_zone_table in Ht.
  destruct (assign_zones df) as [dz|e] eqn:Hz; [|discriminate].
  cbn [mbind result_bind] in Ht. apply zone_table_Ok in Ht as [_ Hr].
  apply assign_zones_Ok in Hz as (_ & _ & _ & _ & ->). cbn [pd.rows] in Hr.
  eapply Forall2_Forall_r; [exact (Forall2_with_elem _ _ _ Hr)|].
  apply Forall_forall. intros k _ r [Hk (Hkey & _)].
  apply elem_of_group_keys in Hk as (r0 & Hr0 & Hg).
  apply zoned_rows_zone in Hr0 as (z & Hz & Hin).
  apply mapM_Some in Hg.
  apply Forall2_cons_inv_l in Hg as (e & k1 & _ & Hg & ->).
  apply Forall2_cons_inv_l in Hg as (v & k2 & _ & Hg & ->).
  apply Forall2_cons_inv_l in Hg as (z' & k3 & Hz' & Hg & ->).
  apply Forall2_nil_inv_l in Hg as ->.
  rewrite Hz in Hz'. injection Hz' as <-.
  injection Hkey as _ _ Hzone. exists z. split; assumption.
Qed.

Lemma zone_table_zones_witness :
  compute_zone_table Demo.u1_assembled = Ok Tables.u1_zones /\
  Forall (fun r => exists z, pd.get r "Зона" = Str z /\ z ∈ ZONES)
         (pd.rows Tables.u1_zones).
Proof.
  assert (H1 : compute_zone_table Demo.u1_assembled = Ok Tables.u1_zones)
    by (vm_compute; reflexivity).
  split; [exact H1|].
  exact (zone_table_zones _ _ H1).
Defined.



(** ** The script *)

(** X13: a run of the script either succeeds after printing exactly the
    three headings, each followed by its table, in the order overall,
    zones, pivot; or fails in the assembler or in the overall table before
    anything is printed; or fails in the zone table after the first heading
    and the overall table, and nothing else, have been printed.  The pivot
    of a zone table never fails, so there is no other case. *)
Theorem main_outcomes `{PyStr} (read_excel : string -> pd.DataFrame) :
  match run (main read_excel) with
  | (out, Ok _) =>
      exists df t zt pv : pd.DataFrame,
        prepare_full_dataframe read_excel = Ok df /\
        compute_overall_table df = Ok t /\
        compute_zone_table df = Ok zt /\
        pivot_summary zt = Ok pv /\
        out = [PrintStr HEAD_OVERALL; PrintFrame t; PrintStr HEAD_ZONES;
               PrintFrame zt; PrintStr HEAD_PIVOT; PrintFrame pv]
  | (out, Raise e) =>
      (out = [] /\
       (prepare_full_dataframe read_excel = Raise e \/
        exists df : pd.DataFrame,
          prepare_full_dataframe read_excel = Ok df /\
          compute_overall_table df = Raise e)) \/
      (exists df t : pd.DataFrame,
         prepare_full_dataframe read_excel = Ok df /\
         compute_overall_table df = Ok t /\
         compute_zone_table df = Raise e /\
         out = [PrintStr HEAD_OVERALL; PrintFrame t])
  end.
Proof.
  unfold run, main, lift, print. unfold mbind, IO_bind.
  destruct (prepare_full_dataframe read_excel) as [df|e0] eqn:Hp.
  2: { left. split; [reflexivity|]. left. reflexivity. }
  destruct (compute_overall_table df) as [t|e0] eqn:Ho.
  2: { left. split; [reflexivity|]. right. exists df. split; [reflexivity | exact Ho]. }
  cbn [app]. destruct (compute_zone_table df) as [zt|e0] eqn:Hz.
  2: { right. exists df, t. repeat split; assumption || reflexivity. }
  cbn [app]. destruct (pivot_summary_total _ _ Hz) as [pv Hpv].
  unfold pivot_summary in Hpv. rewrite Hpv.
  exists df, t, zt, pv. repeat split; assumption || reflexivity.
Qed.
